(** * file-structured-data-validator: format dispatch and fault handling

    A shallow embedding of [main.py]: the loaders [load_data] and
    [load_schema], the dispatch core [validate_data], the path check
    [is_valid_file_path] and the orchestrator [main].

    The third-party libraries the script calls ([json], [yaml],
    [xml.etree.ElementTree], [jsonschema], [lxml]) are not part of the
    repository.  They enter as an interface [Libs] of oracles: each call
    either returns a value or raises a Python exception.  Everything proved
    in the generic part holds for every implementation of that interface;
    module [Fixture] gives one implementation to run the code on concrete
    inputs. *)

From Stdlib Require Import String Ascii List Bool ZArith Lia.
From stdpp Require Import base gmap strings pretty.
Import ListNotations.
Open Scope string_scope.
Open Scope list_scope.
Set Warnings "-register-all".

(** ** Python values *)

(** An [xml.etree.ElementTree.Element]: tag, text and children. *)
Inductive element : Type :=
| Element (tag : string) (text : string) (children : list element).

(** The values that travel through the script.  JSON and YAML documents
    share the structured part; [PElem] is the root returned by
    [tree.getroot()]; the XSD path is a [PStr].  Mappings keep their
    insertion order, as Python dicts do. *)
Inductive pyval : Type :=
| PNone
| PBool (b : bool)
| PInt (z : Z)
| PStr (s : string)
| PList (items : list pyval)
| PDict (items : list (string * pyval))
| PElem (e : element).

(** [d.get(k)] on the items of a mapping. *)
Fixpoint dict_get (k : string) (items : list (string * pyval)) : option pyval :=
  match items with
  | [] => None
  | (k', v) :: rest => if String.eqb k k' then Some v else dict_get k rest
  end.

(** [x is not None] *)
Definition is_not_None (v : pyval) : bool :=
  match v with PNone => false | _ => true end.

(** ** Exceptions *)

(** The exception classes the script's handlers name, and those the
    libraries raise.  [KeyboardInterrupt] stands for the classes that
    derive from [BaseException] but not from [Exception]. *)
Inductive exn_class : Type :=
| BaseException | KeyboardInterrupt | Exception
| OSError | FileNotFoundError | PermissionError
| ValueError | JSONDecodeError | UnicodeDecodeError
| TypeError | AttributeError | NameError | ImportError
| SyntaxError | ET_ParseError
| YAMLError
| ValidationError | SchemaError | RefResolutionError
| LxmlError | XMLSyntaxError | XMLSchemaError | XMLSchemaParseError
| DocumentInvalid.

#[global] Instance exn_class_eq_dec : EqDecision exn_class.
Proof. solve_decision. Defined.

(** The direct base class ([None] for the root). *)
Definition base_of (c : exn_class) : option exn_class :=
  match c with
  | BaseException => None
  | KeyboardInterrupt => Some BaseException
  | Exception => Some BaseException
  | OSError => Some Exception
  | FileNotFoundError => Some OSError
  | PermissionError => Some OSError
  | ValueError => Some Exception
  | JSONDecodeError => Some ValueError
  | UnicodeDecodeError => Some ValueError
  | TypeError => Some Exception
  | AttributeError => Some Exception
  | NameError => Some Exception
  | ImportError => Some Exception
  | SyntaxError => Some Exception
  | ET_ParseError => Some SyntaxError
  | YAMLError => Some Exception
  | ValidationError => Some Exception
  | SchemaError => Some Exception
  | RefResolutionError => Some Exception
  | LxmlError => Some Exception
  | XMLSyntaxError => Some LxmlError
  | XMLSchemaError => Some LxmlError
  | XMLSchemaParseError => Some XMLSchemaError
  | DocumentInvalid => Some LxmlError
  end.

(** [issubclass c d], walking up the bases; the hierarchy is 4 deep. *)
Fixpoint issubclass_fuel (n : nat) (c d : exn_class) : bool :=
  if bool_decide (c = d) then true
  else match n with
       | O => false
       | S n' => match base_of c with
                 | Some b => issubclass_fuel n' b d
                 | None => false
                 end
       end.

Definition issubclass : exn_class -> exn_class -> bool := issubclass_fuel 4.

(** A raised exception: its class and [str(e)]. *)
Record exn : Type := mkExn { exn_cls : exn_class; exn_msg : string }.

Definition isinstance (e : exn) (c : exn_class) : bool :=
  issubclass (exn_cls e) c.
Arguments isinstance : simpl never.

(** ** Observable events and the effect monad *)

Inductive level : Type :=
| WARNING      (* logging.warning *)
| ERROR        (* logging.error *)
| EXCEPTION.   (* logging.exception: ERROR plus the traceback *)

(** The library entry points the script calls. *)
Inductive libfn : Type :=
| json_load | yaml_safe_load | ET_parse
| jsonschema_validate
| lxml_import | lxml_parse | lxml_XMLSchema | ET_tostring
| lxml_fromstring | assertValid.

Inductive event : Type :=
| ELog (lvl : level) (msg : string)
| EPrint (line : string)
| EOpen (path : string)
| ECall (f : libfn).

Inductive result (A : Type) : Type :=
| Ret (a : A)
| Raise (e : exn).
Arguments Ret {A} a.
Arguments Raise {A} e.

(** A computation yields a result and the events it emitted, in order. *)
Definition M (A : Type) : Type := (result A * list event)%type.

Definition ret {A} (a : A) : M A := (Ret a, []).
Definition raise {A} (e : exn) : M A := (Raise e, []).
Definition emit (ev : event) : M unit := (Ret tt, [ev]).

Definition bind {A B} (m : M A) (k : A -> M B) : M B :=
  match m with
  | (Ret a, t) => let '(r, t') := k a in (r, t ++ t')
  | (Raise e, t) => (Raise e, t)
  end.

Declare Scope py_scope.
Delimit Scope py_scope with py.
Notation "x <- c1 ;; c2" := (bind c1 (fun x => c2))
  (at level 100, c1 at next level, right associativity) : py_scope.
Notation "c1 ;;; c2" := (bind c1 (fun _ => c2))
  (at level 100, right associativity) : py_scope.
Open Scope py_scope.

(** A call into a library: the call is recorded, then the oracle's answer
    is returned or raised. *)
Definition call {A} (f : libfn) (r : result A) : M A := (r, [ECall f]).

Definition log (lvl : level) (msg : string) : M unit := emit (ELog lvl msg).
Definition print (line : string) : M unit := emit (EPrint line).

(** ** try / except *)

(** The names bound at module level by the imports and the [def]s. *)
Definition module_globals : list string :=
  [ "argparse"; "json"; "ET"; "yaml"; "logging"; "os"; "jsonschema";
    "validate"; "Path"; "setup_argparse"; "load_data"; "load_schema";
    "validate_data"; "is_valid_file_path"; "main" ].

(** The builtin exception names the handlers use. *)
Definition builtins : list string :=
  [ "FileNotFoundError"; "ValueError"; "Exception" ].

(** The expression of an [except] clause: the name its dotted path starts
    from, and the class the path denotes once that name is bound. *)
Record handler_expr : Type :=
  mkHandlerExpr { root_name : string; denotes : exn_class }.

Definition name_bound (scope : list string) (x : string) : bool :=
  existsb (String.eqb x) scope.

(** Evaluating the expression: an unbound root name raises [NameError]. *)
Definition eval_handler_expr (scope : list string) (h : handler_expr)
  : exn_class + exn :=
  if name_bound scope (root_name h) then inl (denotes h)
  else inr (mkExn NameError ("name '" ++ root_name h ++ "' is not defined")).

(** Python searches the clauses in order, evaluating each expression when
    it is reached; an exception raised by that evaluation replaces the one
    being handled and leaves the whole [try] statement. *)
Fixpoint dispatch {A} (scope : list string)
    (hs : list (handler_expr * (exn -> M A))) (e : exn) : M A :=
  match hs with
  | [] => raise e
  | (hx, h) :: hs' =>
      match eval_handler_expr scope hx with
      | inl c => if isinstance e c then h e else dispatch scope hs' e
      | inr ne => raise ne
      end
  end.

Definition try_except {A} (scope : list string) (body : M A)
    (hs : list (handler_expr * (exn -> M A))) : M A :=
  match body with
  | (Ret a, t) => (Ret a, t)
  | (Raise e, t) => let '(r, t') := dispatch scope hs e in (r, t ++ t')
  end.

(** ** The file system and the libraries *)

(** A regular file: whether the process may read it, and its text. *)
Record file : Type := mkFile { readable : bool; content : string }.

(** [open(path, 'r')] *)
Definition open_r (fs : gmap string file) (path : string) : M string :=
  emit (EOpen path) ;;;
  match fs !! path with
  | None =>
      raise (mkExn FileNotFoundError
               ("[Errno 2] No such file or directory: '" ++ path ++ "'"))
  | Some f =>
      if readable f then ret (content f)
      else raise (mkExn PermissionError
                    ("[Errno 13] Permission denied: '" ++ path ++ "'"))
  end.

(** The limits of the file system on names: 255 bytes for one component
    of a path, 4095 for the path.  The file system holds no file under a
    longer name, and a [stat] of one fails with [ENAMETOOLONG]. *)
Fixpoint longest_component (path : string) (cur best : nat) : nat :=
  match path with
  | EmptyString => Nat.max cur best
  | String c rest =>
      if Ascii.eqb c "/"%char then longest_component rest 0 (Nat.max cur best)
      else longest_component rest (S cur) best
  end.

Definition name_too_long (path : string) : bool :=
  (255 <? longest_component path 0 0)%nat || (4095 <? String.length path)%nat.

(** [Path(path).is_file()]: [True] for a file the file system holds,
    [False] for a path it does not hold; [pathlib] lets the [OSError] of
    an over-long name through. *)
Definition is_file (fs : gmap string file) (path : string) : M bool :=
  match fs !! path with
  | Some _ => ret true
  | None =>
      if name_too_long path then
        raise (mkExn OSError ("[Errno 36] File name too long: '" ++ path ++ "'"))
      else ret false
  end.

(** [os.access(path, os.R_OK)]: it answers [False] where it cannot tell. *)
Definition os_access_R_OK (fs : gmap string file) (path : string) : M bool :=
  ret (match fs !! path with Some f => readable f | None => false end).

(** The libraries, as oracles.  [json.load] and [yaml.safe_load] read the
    text of the open file; [lxml.etree.parse] is given a path and reads the
    file system itself. *)
Record Libs : Type := mkLibs {
  lxml_tree : Type;
  lxml_xmlschema : Type;
  do_json_load : string -> result pyval;
  do_yaml_safe_load : string -> result pyval;
  do_ET_parse : string -> result element;
  do_validate : pyval -> pyval -> result unit;
  do_lxml_import : result unit;
  do_lxml_parse : gmap string file -> pyval -> result lxml_tree;
  do_lxml_XMLSchema : lxml_tree -> result lxml_xmlschema;
  do_ET_tostring : pyval -> result string;
  do_lxml_fromstring : string -> result lxml_tree;
  do_assertValid : lxml_xmlschema -> lxml_tree -> result unit
}.

Definition h_FileNotFoundError := mkHandlerExpr "FileNotFoundError" FileNotFoundError.
Definition h_ValueError := mkHandlerExpr "ValueError" ValueError.
Definition h_Exception := mkHandlerExpr "Exception" Exception.
(** [jsonschema.exceptions.ValidationError], [jsonschema.exceptions.SchemaError] *)
Definition h_ValidationError := mkHandlerExpr "jsonschema" ValidationError.
Definition h_SchemaError := mkHandlerExpr "jsonschema" SchemaError.
(** [lxml.etree.XMLSchemaError], [lxml.etree.XMLSyntaxError] *)
Definition h_XMLSchemaError := mkHandlerExpr "lxml" XMLSchemaError.
Definition h_XMLSyntaxError := mkHandlerExpr "lxml" XMLSyntaxError.

(** What evaluating [lxml.etree.XMLSchemaError] raises. *)
Definition lxml_name_error : exn :=
  mkExn NameError "name 'lxml' is not defined".

(** The names in scope inside each function: builtins, module globals and
    the function's own locals.  [import lxml.etree as lxml_ET] binds the
    alias [lxml_ET] and nothing else. *)
Definition load_data_scope : list string :=
  builtins ++ module_globals ++ ["file_path"; "file_type"; "f"; "data"; "tree"; "e"].
Definition load_schema_scope : list string :=
  builtins ++ module_globals ++ ["schema_path"; "file_type"; "f"; "schema"; "e"].
Definition validate_data_scope : list string :=
  builtins ++ module_globals ++
  ["data"; "schema"; "file_type"; "lxml_ET"; "xmlschema_doc"; "xmlschema";
   "xml_string"; "xml_doc"; "e"].
Definition is_valid_file_path_scope : list string :=
  builtins ++ module_globals ++ ["file_path"; "e"].
Definition main_scope : list string :=
  builtins ++ module_globals ++ ["parser"; "args"; "data"; "schema"; "e"].

Section Program.

Variable L : Libs.
Variable fs : gmap string file.

(** The [with open(...)] block of [load_data]. *)
Definition load_data_try_block (file_path file_type : string) : M pyval :=
  f <- open_r fs file_path ;;
  if String.eqb file_type "json" then
    call json_load (do_json_load L f)
  else if String.eqb file_type "yaml" then
    call yaml_safe_load (do_yaml_safe_load L f)
  else if String.eqb file_type "xml" then
    (tree <- call ET_parse (do_ET_parse L f) ;;
     ret (PElem tree))
  else raise (mkExn ValueError "Unsupported file type.").

Definition load_data_handlers (file_path : string)
  : list (handler_expr * (exn -> M pyval)) :=
  [ (h_FileNotFoundError, fun e =>
       log ERROR ("File not found: " ++ file_path) ;;; raise e);
    (h_ValueError, fun e =>
       log ERROR ("Error loading data: " ++ exn_msg e) ;;; raise e);
    (h_Exception, fun e =>
       log EXCEPTION ("An unexpected error occurred: " ++ exn_msg e) ;;;
       raise e) ].

Definition load_data (file_path file_type : string) : M pyval :=
  try_except load_data_scope
    (load_data_try_block file_path file_type)
    (load_data_handlers file_path).

(** The [with open(...)] block of [load_schema]. *)
Definition load_schema_try_block (schema_path file_type : string) : M pyval :=
  f <- open_r fs schema_path ;;
  if String.eqb file_type "json" then
    call json_load (do_json_load L f)
  else if String.eqb file_type "yaml" then
    call yaml_safe_load (do_yaml_safe_load L f)
  else if String.eqb file_type "xml" then
    ret (PStr schema_path)
  else raise (mkExn ValueError "Unsupported schema file type.").

Definition load_schema_handlers (schema_path : string)
  : list (handler_expr * (exn -> M pyval)) :=
  [ (h_FileNotFoundError, fun e =>
       log ERROR ("Schema file not found: " ++ schema_path) ;;; raise e);
    (h_ValueError, fun e =>
       log ERROR ("Error loading schema: " ++ exn_msg e) ;;; raise e);
    (h_Exception, fun e =>
       log EXCEPTION ("An unexpected error occurred: " ++ exn_msg e) ;;;
       raise e) ].

Definition load_schema (schema_path file_type : string) : M pyval :=
  try_except load_schema_scope
    (load_schema_try_block schema_path file_type)
    (load_schema_handlers schema_path).

(** The inner [try] block of the XML branch. *)
Definition xml_block (data schema : pyval) : M bool :=
  call lxml_import (do_lxml_import L) ;;;
  xmlschema_doc <- call lxml_parse (do_lxml_parse L fs schema) ;;
  xmlschema <- call lxml_XMLSchema (do_lxml_XMLSchema L xmlschema_doc) ;;
  xml_string <- call ET_tostring (do_ET_tostring L data) ;;
  xml_doc <- call lxml_fromstring (do_lxml_fromstring L xml_string) ;;
  call assertValid (do_assertValid L xmlschema xml_doc) ;;;
  ret true.

Definition xml_handlers : list (handler_expr * (exn -> M bool)) :=
  [ (h_XMLSchemaError, fun e =>
       log ERROR ("XML Schema validation error: " ++ exn_msg e) ;;; ret false);
    (h_XMLSyntaxError, fun e =>
       log ERROR ("XML Syntax Error: " ++ exn_msg e) ;;; ret false);
    (h_Exception, fun e =>
       log EXCEPTION ("An unexpected error occurred: " ++ exn_msg e) ;;;
       ret false) ].

Definition validate_handlers : list (handler_expr * (exn -> M bool)) :=
  [ (h_ValidationError, fun e =>
       log ERROR ("Validation error: " ++ exn_msg e) ;;; ret false);
    (h_SchemaError, fun e =>
       log ERROR ("Schema error: " ++ exn_msg e) ;;; ret false);
    (h_ValueError, fun e =>
       log ERROR ("Error during validation: " ++ exn_msg e) ;;; ret false);
    (h_Exception, fun e =>
       log EXCEPTION ("An unexpected error occurred: " ++ exn_msg e) ;;;
       ret false) ].

Definition validate_data (data schema : pyval) (file_type : string) : M bool :=
  try_except validate_data_scope
    (if String.eqb file_type "json" then
       (call jsonschema_validate (do_validate L data schema) ;;; ret true)
     else if String.eqb file_type "yaml" then
       (call jsonschema_validate (do_validate L data schema) ;;; ret true)
     else if String.eqb file_type "xml" then
       try_except validate_data_scope (xml_block data schema) xml_handlers
     else raise (mkExn ValueError "Unsupported file type."))
    validate_handlers.

Definition is_valid_file_path (file_path : string) : M bool :=
  try_except is_valid_file_path_scope
    (found <- is_file fs file_path ;;
     if negb found then
       (log WARNING ("File does not exist or is not a file: " ++ file_path) ;;;
        ret false)
     else
       (ok <- os_access_R_OK fs file_path ;;
        if negb ok then
          (log WARNING ("File is not readable: " ++ file_path) ;;; ret false)
        else ret true))
    [ (h_Exception, fun e =>
         log ERROR ("Error checking file path: " ++ exn_msg e) ;;; ret false) ].

(** The [try] block of [main]. *)
Definition main_try_block (file_path schema_path file_type : string) : M unit :=
  data <- load_data file_path file_type ;;
  schema <- load_schema schema_path file_type ;;
  if is_not_None data && is_not_None schema then
    (ok <- validate_data data schema file_type ;;
     if ok then print "Data validation successful."
     else print "Data validation failed.")
  else print "Failed to load data or schema.".

(** [main], from the parsed arguments on. *)
Definition main (file_path schema_path file_type : string) : M unit :=
  ok_file <- is_valid_file_path file_path ;;
  if negb ok_file then print "Invalid file path. Exiting."
  else
    ok_schema <- is_valid_file_path schema_path ;;
    if negb ok_schema then print "Invalid schema path. Exiting."
    else
      try_except main_scope
        (main_try_block file_path schema_path file_type)
        [ (h_Exception, fun e => print ("An error occurred: " ++ exn_msg e)) ].

End Program.

(** ** Reading a trace *)

(** The calls that belong to validation, as opposed to loading. *)
Definition is_validation_call (ev : event) : bool :=
  match ev with
  | ECall jsonschema_validate | ECall lxml_import | ECall lxml_parse
  | ECall lxml_XMLSchema | ECall ET_tostring | ECall lxml_fromstring
  | ECall assertValid => true
  | _ => false
  end.

Definition is_call (ev : event) : bool :=
  match ev with ECall _ => true | _ => false end.

Definition is_log (ev : event) : bool :=
  match ev with ELog _ _ => true | _ => false end.

(** The two lines [main] prints after a validation. *)
Definition is_verdict_line (ev : event) : bool :=
  match ev with
  | EPrint line =>
      String.eqb line "Data validation successful."
      || String.eqb line "Data validation failed."
  | _ => false
  end.

(** What a loader may emit: the [open], its parser's call, a log record. *)
Definition is_loader_event (ev : event) : bool :=
  match ev with
  | EOpen _ | ELog _ _ => true
  | ECall json_load | ECall yaml_safe_load | ECall ET_parse => true
  | _ => false
  end.

(** The file exists, is a regular file and may be read. *)
Definition readable_file (fs : gmap string file) (path : string) : Prop :=
  exists f, fs !! path = Some f /\ readable f = true.

Definition never (p : event -> bool) (t : list event) : Prop :=
  existsb p t = false.

(** ** A concrete implementation of the libraries

    Enough of each library to run the script on the documents of
    [__main__] and a few variations: the parsers know a finite set of texts, [validate]
    implements the keywords [type] (one name), [required] and [properties],
    and the XSD engine knows one schema. *)
Module Fixture.
Local Open Scope string_scope.

Definition dq : string := String (ascii_of_nat 34) EmptyString.
Definition quoted (s : string) : string := dq ++ s ++ dq.

(** *** Documents and schemas *)

(** The data written to [data.json] by [__main__]. *)
Definition person : pyval :=
  PDict [("name", PStr "John Doe"); ("age", PInt 30)].
Definition person_text : string :=
  "{" ++ quoted "name" ++ ": " ++ quoted "John Doe" ++ ", "
      ++ quoted "age" ++ ": 30}".

Definition person_bad_age : pyval :=
  PDict [("name", PStr "John Doe"); ("age", PStr "thirty")].
Definition person_bad_age_text : string :=
  "{" ++ quoted "name" ++ ": " ++ quoted "John Doe" ++ ", "
      ++ quoted "age" ++ ": " ++ quoted "thirty" ++ "}".

Definition person_no_age : pyval := PDict [("name", PStr "John Doe")].
Definition person_no_age_text : string :=
  "{" ++ quoted "name" ++ ": " ++ quoted "John Doe" ++ "}".

(** The schema written to [schema.json] by [__main__]. *)
Definition person_schema : pyval :=
  PDict [("type", PStr "object");
         ("properties",
            PDict [("name", PDict [("type", PStr "string")]);
                   ("age", PDict [("type", PStr "integer")])]);
         ("required", PList [PStr "name"; PStr "age"])].
Definition person_schema_text : string :=
  "{" ++ quoted "type" ++ ": " ++ quoted "object" ++ ", "
      ++ quoted "properties" ++ ": {"
      ++ quoted "name" ++ ": {" ++ quoted "type" ++ ": " ++ quoted "string" ++ "}, "
      ++ quoted "age" ++ ": {" ++ quoted "type" ++ ": " ++ quoted "integer" ++ "}}, "
      ++ quoted "required" ++ ": [" ++ quoted "name" ++ ", " ++ quoted "age" ++ "]}".

Definition bad_type_schema : pyval := PDict [("type", PStr "nonexistent-type")].
Definition bad_type_schema_text : string :=
  "{" ++ quoted "type" ++ ": " ++ quoted "nonexistent-type" ++ "}".

Definition dangling_ref_schema : pyval :=
  PDict [("$ref", PStr "#/definitions/missing")].

(** Truncated JSON. *)
Definition broken_text : string := "{" ++ quoted "name" ++ ":".

(** *** [json] and [yaml] *)

Definition json_texts : list (string * pyval) :=
  [ (person_text, person);
    (person_bad_age_text, person_bad_age);
    (person_no_age_text, person_no_age);
    (person_schema_text, person_schema);
    (bad_type_schema_text, bad_type_schema);
    ("null", PNone);
    ("30", PInt 30) ].

Definition fixture_json_load (text : string) : result pyval :=
  match dict_get text json_texts with
  | Some v => Ret v
  | None =>
      if String.eqb text broken_text then
        Raise (mkExn JSONDecodeError "Expecting value: line 1 column 9 (char 8)")
      else
        Raise (mkExn JSONDecodeError "Expecting value: line 1 column 1 (char 0)")
  end.

(** JSON texts are YAML texts; an empty file and [~] load as [None]. *)
Definition fixture_yaml_safe_load (text : string) : result pyval :=
  if String.eqb text EmptyString then Ret PNone
  else if String.eqb text "~" then Ret PNone
  else match dict_get text json_texts with
       | Some v => Ret v
       | None =>
           Raise (mkExn YAMLError
                    "while parsing a flow mapping: expected ',' or '}', but got '<stream end>'")
       end.

(** *** [jsonschema.validate] *)

Definition json_types : list string :=
  ["null"; "boolean"; "object"; "array"; "number"; "string"; "integer"].

Definition is_type (v : pyval) (t : string) : bool :=
  match v with
  | PNone => String.eqb t "null"
  | PBool _ => String.eqb t "boolean"
  | PInt _ => String.eqb t "integer" || String.eqb t "number"
  | PStr _ => String.eqb t "string"
  | PList _ => String.eqb t "array"
  | PDict _ => String.eqb t "object"
  | PElem _ => false
  end.

Definition repr (v : pyval) : string :=
  match v with
  | PNone => "None"
  | PBool true => "True"
  | PBool false => "False"
  | PInt z => pretty z
  | PStr s => "'" ++ s ++ "'"
  | PList _ => "[...]"
  | PDict _ => "{...}"
  | PElem _ => "<Element>"
  end.

Fixpoint first_problem (l : list (option string)) : option string :=
  match l with
  | [] => None
  | Some m :: _ => Some m
  | None :: rest => first_problem rest
  end.

Definition is_str (v : pyval) : bool :=
  match v with PStr _ => true | _ => false end.

(** [check_schema]: [None] when the schema is accepted, else the reason. *)
Fixpoint check_schema (depth : nat) (sch : pyval) : option string :=
  match sch with
  | PBool _ => None
  | PDict kvs =>
      first_problem
        [ match dict_get "type" kvs with
          | None => None
          | Some (PStr t) =>
              if existsb (String.eqb t) json_types then None
              else Some ("'" ++ t ++ "' is not valid under any of the given schemas")
          | Some v => Some (repr v ++ " is not valid under any of the given schemas")
          end;
          match dict_get "required" kvs with
          | None => None
          | Some (PList req) =>
              if forallb is_str req then None
              else Some "[...] has a non-string item"
          | Some v => Some (repr v ++ " is not of type 'array'")
          end;
          match dict_get "properties" kvs with
          | None => None
          | Some (PDict props) =>
              match depth with
              | O => None
              | S d => first_problem (map (fun kv => check_schema d (snd kv)) props)
              end
          | Some v => Some (repr v ++ " is not of type 'object'")
          end ]
  | v => Some (repr v ++ " is not of type 'object', 'boolean'")
  end.

Definition missing_required (items : list (string * pyval)) (req : list pyval)
  : list string :=
  flat_map (fun r =>
              match r with
              | PStr k => match dict_get k items with
                          | None => ["'" ++ k ++ "' is a required property"]
                          | Some _ => []
                          end
              | _ => []
              end) req.

(** The nonconformances of [inst] against an accepted schema. *)
Fixpoint errors (depth : nat) (inst sch : pyval) : list string :=
  match sch with
  | PBool false => ["False schema does not allow " ++ repr inst]
  | PDict kvs =>
      (match dict_get "type" kvs with
       | Some (PStr t) =>
           if is_type inst t then []
           else [(repr inst ++ " is not of type '" ++ t ++ "'")%string]
       | _ => []
       end
       ++
       match inst, dict_get "required" kvs with
       | PDict items, Some (PList req) => missing_required items req
       | _, _ => []
       end
       ++
       match inst, dict_get "properties" kvs, depth with
      | PDict items, Some (PDict props), S d =>
          flat_map (fun kv =>
                      match dict_get (fst kv) items with
                      | Some v => errors d v (snd kv)
                      | None => []
                      end) props
       | _, _, _ => []
       end)%list
  | _ => []
  end.

Definition has_ref (sch : pyval) : bool :=
  match sch with
  | PDict kvs => match dict_get "$ref" kvs with Some _ => true | None => false end
  | _ => false
  end.

Definition fixture_validate (inst sch : pyval) : result unit :=
  match check_schema 8 sch with
  | Some reason => Raise (mkExn SchemaError reason)
  | None =>
      if has_ref sch then
        Raise (mkExn RefResolutionError "Unresolvable JSON pointer: 'definitions/missing'")
      else
        match errors 8 inst sch with
        | [] => Ret tt
        | reason :: _ => Raise (mkExn ValidationError reason)
        end
  end.

(** *** [xml.etree.ElementTree] and [lxml] *)

Definition item_doc (value : string) : element :=
  Element "root" EmptyString [Element "item" value []].

(** [ET.tostring]: an element without text and children is written
    self-closed. *)
Fixpoint serialize (e : element) : string :=
  match e with
  | Element tag text children =>
      match text, children with
      | EmptyString, [] => "<" ++ tag ++ " />"
      | _, _ =>
          "<" ++ tag ++ ">" ++ text
          ++ (fix all (l : list element) : string :=
                match l with
                | [] => EmptyString
                | c :: l' => serialize c ++ all l'
                end) children
          ++ "</" ++ tag ++ ">"
      end
  end.

Definition item_xsd_text : string :=
  "<xs:schema xmlns:xs='http://www.w3.org/2001/XMLSchema'>"
  ++ "<xs:element name='root'><xs:complexType><xs:sequence>"
  ++ "<xs:element name='item' type='xs:integer'/>"
  ++ "</xs:sequence></xs:complexType></xs:element></xs:schema>".

Definition garbled_text : string := "this is not xml".

Definition fixture_ET_parse (text : string) : result element :=
  if String.eqb text (serialize (item_doc "1")) then Ret (item_doc "1")
  else if String.eqb text (serialize (item_doc "abc")) then Ret (item_doc "abc")
  else Raise (mkExn ET_ParseError "syntax error: line 1, column 0").

Definition syntax_error : exn :=
  mkExn XMLSyntaxError "Start tag expected, '<' not found, line 1, column 1".

(** [lxml.etree.parse(source)] reads the file named by [source]. *)
Definition fixture_lxml_parse (fs : gmap string file) (source : pyval)
  : result string :=
  match source with
  | PStr path =>
      match fs !! path with
      | Some f =>
          if readable f && String.prefix "<" (content f) then Ret (content f)
          else if readable f then Raise syntax_error
          else Raise (mkExn OSError
                        ("Error reading file '" ++ path
                         ++ "': failed to load external entity"))
      | None =>
          Raise (mkExn OSError
                   ("Error reading file '" ++ path
                    ++ "': failed to load external entity"))
      end
  | v => Raise (mkExn TypeError ("cannot parse from " ++ repr v))
  end.

(** The one XSD the engine compiles. *)
Definition fixture_lxml_XMLSchema (doc : string) : result unit :=
  if String.eqb doc item_xsd_text then Ret tt
  else Raise (mkExn XMLSchemaParseError
                "The XML document is not a schema document.").

Definition fixture_ET_tostring (v : pyval) : result string :=
  match v with
  | PElem e => Ret (serialize e)
  | v => Raise (mkExn AttributeError (repr v ++ " object has no attribute 'iter'"))
  end.

Definition fixture_lxml_fromstring (text : string) : result string :=
  if String.prefix "<" text then Ret text else Raise syntax_error.

Definition is_digit (c : ascii) : bool :=
  (48 <=? nat_of_ascii c)%nat && (nat_of_ascii c <=? 57)%nat.

(** Split at the first ['<']. *)
Fixpoint span_text (s : string) : string * string :=
  match s with
  | EmptyString => (EmptyString, EmptyString)
  | String c rest =>
      if Ascii.eqb c "<"%char then (EmptyString, s)
      else let '(txt, tl) := span_text rest in (String c txt, tl)
  end.

Fixpoint all_digits (s : string) : bool :=
  match s with
  | EmptyString => true
  | String c rest => is_digit c && all_digits rest
  end.

Definition strip_prefix (p s : string) : option string :=
  if String.prefix p s then
    Some (substring (String.length p) (String.length s - String.length p) s)
  else None.

(** [xmlschema.assertValid(doc)] for the compiled [item_xsd_text]. *)
Definition fixture_assertValid (_ : unit) (doc : string) : result unit :=
  match strip_prefix "<root><item>" doc with
  | None =>
      Raise (mkExn DocumentInvalid
               "No matching global declaration available for the validation root.")
  | Some rest =>
      let '(txt, tl) := span_text rest in
      if negb (String.eqb tl "</item></root>") then
        Raise (mkExn DocumentInvalid "Element 'item': This element is not expected.")
      else if all_digits txt && negb (String.eqb txt EmptyString) then Ret tt
      else
        Raise (mkExn DocumentInvalid
                 ("Element 'item': '" ++ txt
                  ++ "' is not a valid value of the atomic type 'xs:integer'."))
  end.

Definition libs : Libs :=
  {| lxml_tree := string;
     lxml_xmlschema := unit;
     do_json_load := fixture_json_load;
     do_yaml_safe_load := fixture_yaml_safe_load;
     do_ET_parse := fixture_ET_parse;
     do_validate := fixture_validate;
     do_lxml_import := Ret tt;
     do_lxml_parse := fixture_lxml_parse;
     do_lxml_XMLSchema := fixture_lxml_XMLSchema;
     do_ET_tostring := fixture_ET_tostring;
     do_lxml_fromstring := fixture_lxml_fromstring;
     do_assertValid := fixture_assertValid |}.

(** *** File systems *)

Definition text_file (text : string) : file := mkFile true text.

Definition disk : gmap string file :=
  {[ "data.json" := text_file person_text;
     "bad_age.json" := text_file person_bad_age_text;
     "no_age.json" := text_file person_no_age_text;
     "broken.json" := text_file broken_text;
     "null.json" := text_file "null";
     "empty.yaml" := text_file EmptyString;
     "schema.json" := text_file person_schema_text;
     "bad_type_schema.json" := text_file bad_type_schema_text;
     "one.xml" := text_file (serialize (item_doc "1"));
     "abc.xml" := text_file (serialize (item_doc "abc"));
     "item.xsd" := text_file item_xsd_text;
     "garbled.xsd" := text_file garbled_text;
     "secret.json" := mkFile false person_text ]}.

End Fixture.

(** ** The command line and the [__main__] block *)

(** One [add_argument] call: the name, the admitted values (when
    [choices] is given), whether the argument must be present, the help
    text.  Positional arguments are always required. *)
Record argument : Type := mkArgument {
  arg_name : string;
  arg_choices : option (list string);
  arg_required : bool;
  arg_help : string
}.

Record ArgumentParser : Type := mkArgumentParser {
  description : string;
  arguments : list argument
}.

Definition setup_argparse : ArgumentParser :=
  {| description := "Validates structured data files against a schema.";
     arguments :=
       [ mkArgument "file_path" None true "Path to the data file.";
         mkArgument "schema_path" None true "Path to the schema file.";
         mkArgument "--file_type" (Some ["json"; "xml"; "yaml"]) true
           "Type of the data file (json, xml, yaml)." ] |}.

(** The values the parser admits for the argument [name]: [None] when the
    parser has no such argument or the argument admits any value. *)
Definition choices_of (parser : ArgumentParser) (name : string)
  : option (list string) :=
  match find (fun a => String.eqb (arg_name a) name) (arguments parser) with
  | Some a => arg_choices a
  | None => None
  end.

(** Whether [parse_args] lets [value] through for the argument [name]. *)
Definition admits (parser : ArgumentParser) (name value : string) : bool :=
  match choices_of parser name with
  | Some cs => existsb (String.eqb value) cs
  | None => true
  end.

(** The dicts [__main__] writes when the example files are missing. *)
Definition example_data : pyval :=
  PDict [("name", PStr "John Doe"); ("age", PInt 30)].

Definition example_schema : pyval :=
  PDict [("type", PStr "object");
         ("properties",
            PDict [("name", PDict [("type", PStr "string")]);
                   ("age", PDict [("type", PStr "integer")])]);
         ("required", PList [PStr "name"; PStr "age"])].

Section Script.

(** The text [json.dump] writes for a value. *)
Variable json_dumps : pyval -> string.
Variable L : Libs.

(** [if not os.path.exists(path): with open(path, "w") as f: json.dump(v, f)] *)
Definition write_if_missing (path : string) (v : pyval)
    (fs : gmap string file) : gmap string file :=
  match fs !! path with
  | Some _ => fs
  | None => <[path := mkFile true (json_dumps v)]> fs
  end.

(** The file system after the two guarded writes of [__main__]. *)
Definition bootstrap (fs : gmap string file) : gmap string file :=
  write_if_missing "schema.json" example_schema
    (write_if_missing "data.json" example_data fs).

(** The [__main__] block: the guarded writes, then [main()]. *)
Definition run_as_script (fs : gmap string file)
    (file_path schema_path file_type : string) : M unit :=
  main L (bootstrap fs) file_path schema_path file_type.

End Script.

(** ** More ways to read a trace *)

Definition is_print (ev : event) : bool :=
  match ev with EPrint _ => true | _ => false end.

(** What [validate_data] may emit: library calls and log records. *)
Definition is_validator_event (ev : event) : bool :=
  match ev with ECall _ | ELog _ _ => true | _ => false end.

Definition opens (path : string) (ev : event) : bool :=
  match ev with EOpen p => String.eqb p path | _ => false end.

(** [json.dumps] on the structured values, for texts without characters
    that need escaping; an [Element] is not serializable and is never
    dumped by the script. *)
Fixpoint json_dumps_fixture (v : pyval) : string :=
  (match v with
   | PNone => "null"
   | PBool true => "true"
   | PBool false => "false"
   | PInt z => pretty z
   | PStr s => Fixture.quoted s
   | PList items =>
       "[" ++ (fix all (l : list pyval) : string :=
                 match l with
                 | [] => EmptyString
                 | x :: l' =>
                     json_dumps_fixture x
                     ++ match l' with [] => EmptyString | _ => ", " ++ all l' end
                 end) items ++ "]"
   | PDict items =>
       "{" ++ (fix all (l : list (string * pyval)) : string :=
                 match l with
                 | [] => EmptyString
                 | (k, x) :: l' =>
                     Fixture.quoted k ++ ": " ++ json_dumps_fixture x
                     ++ match l' with [] => EmptyString | _ => ", " ++ all l' end
                 end) items ++ "}"
   | PElem _ => EmptyString
   end)%string.

(** The calls of the XML branch that touch the document: serializing it,
    re-parsing it, checking it. *)
Definition is_document_call (ev : event) : bool :=
  match ev with
  | ECall ET_tostring | ECall lxml_fromstring | ECall assertValid => true
  | _ => false
  end.

(** The fixture on a machine without [lxml]: the import fails. *)
Definition libs_without_lxml : Libs :=
  {| lxml_tree := string;
     lxml_xmlschema := unit;
     do_json_load := Fixture.fixture_json_load;
     do_yaml_safe_load := Fixture.fixture_yaml_safe_load;
     do_ET_parse := Fixture.fixture_ET_parse;
     do_validate := Fixture.fixture_validate;
     do_lxml_import := Raise (mkExn ImportError "No module named 'lxml'");
     do_lxml_parse := Fixture.fixture_lxml_parse;
     do_lxml_XMLSchema := Fixture.fixture_lxml_XMLSchema;
     do_ET_tostring := Fixture.fixture_ET_tostring;
     do_lxml_fromstring := Fixture.fixture_lxml_fromstring;
     do_assertValid := Fixture.fixture_assertValid |}.

(** The fixture with a validator that gives up on a schema whose [pattern]
    it cannot use, raising a [ValueError]. *)
Definition libs_strict_pattern : Libs :=
  {| lxml_tree := string;
     lxml_xmlschema := unit;
     do_json_load := Fixture.fixture_json_load;
     do_yaml_safe_load := Fixture.fixture_yaml_safe_load;
     do_ET_parse := Fixture.fixture_ET_parse;
     do_validate := fun inst sch =>
       match sch with
       | PDict kvs =>
           match dict_get "pattern" kvs with
           | Some _ => Raise (mkExn ValueError "unsupported pattern")
           | None => Fixture.fixture_validate inst sch
           end
       | _ => Fixture.fixture_validate inst sch
       end;
     do_lxml_import := Ret tt;
     do_lxml_parse := Fixture.fixture_lxml_parse;
     do_lxml_XMLSchema := Fixture.fixture_lxml_XMLSchema;
     do_ET_tostring := Fixture.fixture_ET_tostring;
     do_lxml_fromstring := Fixture.fixture_lxml_fromstring;
     do_assertValid := Fixture.fixture_assertValid |}.

(** A name of [n] letters; 300 letters are more than a component may
    have. *)
Fixpoint letters (n : nat) : string :=
  match n with
  | O => EmptyString
  | S n' => String "a"%char (letters n')
  end.

Definition overlong_name : string := letters 300.

(** * Properties *)

(** ** The Validator *)

Section Validator.

Variable L : Libs.
Variable fs : gmap string file.

Lemma validate_data_structured (data schema : pyval) (ft : string) :
  ft = "json" \/ ft = "yaml" ->
  validate_data L fs data schema ft
  = match do_validate L data schema with
    | Ret _ => (Ret true, [ECall jsonschema_validate])
    | Raise e =>
        let '(r, t) := dispatch validate_data_scope (validate_handlers) e in
        (r, ECall jsonschema_validate :: t)
    end.
Proof.
  intros [-> | ->]; unfold validate_data; cbn;
    destruct (do_validate L data schema) as [[] | e]; cbn; try reflexivity;
    destruct (dispatch _ _ e); reflexivity.
Qed.

Lemma dispatch_ValidationError (e : exn) :
  exn_cls e = ValidationError ->
  dispatch validate_data_scope validate_handlers e
  = (Ret false, [ELog ERROR ("Validation error: " ++ exn_msg e)]).
Proof. destruct e as [c m]; cbn; intros ->; reflexivity. Qed.

Lemma dispatch_SchemaError (e : exn) :
  exn_cls e = SchemaError ->
  dispatch validate_data_scope validate_handlers e
  = (Ret false, [ELog ERROR ("Schema error: " ++ exn_msg e)]).
Proof. destruct e as [c m]; cbn; intros ->; reflexivity. Qed.

Lemma dispatch_unanticipated (e : exn) :
  isinstance e Exception = true ->
  isinstance e ValidationError = false ->
  isinstance e SchemaError = false ->
  isinstance e ValueError = false ->
  dispatch validate_data_scope validate_handlers e
  = (Ret false, [ELog EXCEPTION ("An unexpected error occurred: " ++ exn_msg e)]).
Proof.
  intros HE HV HS HU. cbn. rewrite HV, HS, HU, HE. reflexivity.
Qed.

(** Whatever derives from [Exception] is turned into [False] by one of the
    four outer handlers. *)
Lemma dispatch_returns_false (e : exn) :
  isinstance e Exception = true ->
  fst (dispatch validate_data_scope validate_handlers e) = Ret false.
Proof.
  intros HE. cbn.
  destruct (isinstance e ValidationError); [reflexivity |].
  destruct (isinstance e SchemaError); [reflexivity |].
  destruct (isinstance e ValueError); [reflexivity |].
  rewrite HE. reflexivity.
Qed.

Lemma xml_dispatch_fails (e : exn) :
  dispatch validate_data_scope (xml_handlers) e = raise lxml_name_error.
Proof. reflexivity. Qed.

Lemma validate_data_xml (data schema : pyval) :
  validate_data L fs data schema "xml"
  = match xml_block L fs data schema with
    | (Ret b, t) => (Ret b, t)
    | (Raise _, t) =>
        (Ret false,
         t ++ [ELog EXCEPTION
                 ("An unexpected error occurred: " ++ exn_msg lxml_name_error)])
    end.
Proof.
  unfold validate_data, try_except at 1 2. cbn [String.eqb Ascii.eqb Bool.eqb].
  destruct (xml_block L fs data schema) as [[b | e] t].
  - reflexivity.
  - rewrite xml_dispatch_fails. cbn. rewrite app_nil_r. reflexivity.
Qed.

Lemma validate_data_unsupported (data schema : pyval) (ft : string) :
  ft <> "json" -> ft <> "yaml" -> ft <> "xml" ->
  validate_data L fs data schema ft
  = (Ret false, [ELog ERROR "Error during validation: Unsupported file type."]).
Proof.
  intros Hj Hy Hx. unfold validate_data.
  apply String.eqb_neq in Hj, Hy, Hx. rewrite Hj, Hy, Hx. reflexivity.
Qed.

(** C1 (as amended): in the JSON and YAML branches a schema that the
    library rejects with [SchemaError] makes [validate_data] return [False]
    after logging "Schema error: <reason>"; a document that fails to conform
    makes it return [False] after logging "Validation error: <reason>".
    The returned value is the same in both cases; the two failure classes
    are told apart by the log record only. *)
Theorem schema_error_logged_not_returned
    (data schema data' schema' : pyval) (ft : string) (e e' : exn) :
  ft = "json" \/ ft = "yaml" ->
  do_validate L data schema = Raise e -> exn_cls e = SchemaError ->
  do_validate L data' schema' = Raise e' -> exn_cls e' = ValidationError ->
  validate_data L fs data schema ft
  = (Ret false,
     [ECall jsonschema_validate; ELog ERROR ("Schema error: " ++ exn_msg e)])
  /\ validate_data L fs data' schema' ft
     = (Ret false,
        [ECall jsonschema_validate;
         ELog ERROR ("Validation error: " ++ exn_msg e')])
  /\ fst (validate_data L fs data schema ft)
     = fst (validate_data L fs data' schema' ft)
  /\ snd (validate_data L fs data schema ft)
     <> snd (validate_data L fs data' schema' ft).
Proof.
  intros Hft He Hc He' Hc'.
  assert (R1 : validate_data L fs data schema ft
               = (Ret false,
                  [ECall jsonschema_validate;
                   ELog ERROR ("Schema error: " ++ exn_msg e)])).
  { rewrite validate_data_structured, He, dispatch_SchemaError by assumption.
    reflexivity. }
  assert (R2 : validate_data L fs data' schema' ft
               = (Ret false,
                  [ECall jsonschema_validate;
                   ELog ERROR ("Validation error: " ++ exn_msg e')])).
  { rewrite validate_data_structured, He', dispatch_ValidationError
      by assumption.
    reflexivity. }
  rewrite R1, R2. repeat split. cbn. intros H. discriminate H.
Qed.

Lemma file_type_cases (ft : string) :
  (ft = "json" \/ ft = "yaml") \/ ft = "xml"
  \/ (ft <> "json" /\ ft <> "yaml" /\ ft <> "xml").
Proof.
  destruct (String.eqb ft "json") eqn:Ej;
    [apply String.eqb_eq in Ej; auto | apply String.eqb_neq in Ej].
  destruct (String.eqb ft "yaml") eqn:Ey;
    [apply String.eqb_eq in Ey; auto | apply String.eqb_neq in Ey].
  destruct (String.eqb ft "xml") eqn:Ex;
    [apply String.eqb_eq in Ex; auto | apply String.eqb_neq in Ex].
  auto.
Qed.

(** C2 (as amended): whatever the document, the schema and the format tag,
    and as long as a fault of the JSON Schema library derives from
    [Exception], [validate_data] does not raise: it returns a [bool].  The
    value is [True] exactly when the library accepted ([jsonschema.validate]
    returned, or the XML block ran to its end) and [False] for every
    failure: a fault of [jsonschema.validate], whatever its class, a fault
    in the XML block, an unsupported tag.  In the JSON and YAML branches a
    fault that no specific handler names ends in [False] with the record
    "An unexpected error occurred: <message>" carrying the fault's own
    message. *)
Theorem validate_data_never_raises (data schema : pyval) (ft : string) :
  (forall e, do_validate L data schema = Raise e ->
             isinstance e Exception = true) ->
  (exists b, fst (validate_data L fs data schema ft) = Ret b)
  /\ (fst (validate_data L fs data schema ft) = Ret true
      <-> ((ft = "json" \/ ft = "yaml") /\ do_validate L data schema = Ret tt)
          \/ (ft = "xml" /\ fst (xml_block L fs data schema) = Ret true))
  /\ (ft = "json" \/ ft = "yaml" ->
      forall e, do_validate L data schema = Raise e ->
                fst (validate_data L fs data schema ft) = Ret false)
  /\ (ft = "xml" ->
      forall e t, xml_block L fs data schema = (Raise e, t) ->
                  fst (validate_data L fs data schema ft) = Ret false)
  /\ (ft <> "json" -> ft <> "yaml" -> ft <> "xml" ->
      fst (validate_data L fs data schema ft) = Ret false)
  /\ (forall e,
        ft = "json" \/ ft = "yaml" ->
        do_validate L data schema = Raise e ->
        isinstance e ValidationError = false ->
        isinstance e SchemaError = false ->
        isinstance e ValueError = false ->
        validate_data L fs data schema ft
        = (Ret false,
           [ECall jsonschema_validate;
            ELog EXCEPTION ("An unexpected error occurred: " ++ exn_msg e)])).
Proof.
  intros Hlib.
  assert (Hfault : ft = "json" \/ ft = "yaml" ->
                   forall e, do_validate L data schema = Raise e ->
                             fst (validate_data L fs data schema ft) = Ret false).
  { intros Hs e He. rewrite validate_data_structured, He by exact Hs.
    pose proof (dispatch_returns_false e (Hlib e He)) as Hd.
    destruct (dispatch validate_data_scope validate_handlers e). exact Hd. }
  assert (Hxml : ft = "xml" ->
                 forall e t, xml_block L fs data schema = (Raise e, t) ->
                             fst (validate_data L fs data schema ft) = Ret false).
  { intros -> e t Hb. rewrite validate_data_xml, Hb. reflexivity. }
  assert (Hother : ft <> "json" -> ft <> "yaml" -> ft <> "xml" ->
                   fst (validate_data L fs data schema ft) = Ret false).
  { intros Hj Hy Hx. rewrite validate_data_unsupported by assumption.
    reflexivity. }
  assert (Htrue : fst (validate_data L fs data schema ft) = Ret true
                  <-> ((ft = "json" \/ ft = "yaml")
                       /\ do_validate L data schema = Ret tt)
                      \/ (ft = "xml"
                          /\ fst (xml_block L fs data schema) = Ret true)).
  { destruct (file_type_cases ft) as [Hs | [Hx | (Hj & Hy & Hx)]].
    - destruct (do_validate L data schema) as [[] | e] eqn:Hv.
      + rewrite validate_data_structured, Hv by exact Hs.
        split; [intros _; left; auto | reflexivity].
      + rewrite (Hfault Hs e eq_refl).
        split; [discriminate |].
        intros [[_ H] | [-> _]]; [discriminate H | destruct Hs; discriminate].
    - subst ft. rewrite validate_data_xml.
      destruct (xml_block L fs data schema) as [[b | e] t]; cbn.
      + split; [intros H; right; auto |].
        intros [[[H | H] _] | [_ H]]; [discriminate H | discriminate H | exact H].
      + split; [discriminate |].
        intros [[[H | H] _] | [_ H]]; discriminate H.
    - rewrite (Hother Hj Hy Hx).
      split; [discriminate |].
      intros [[[H | H] _] | [H _]]; contradiction. }
  split; [| split; [exact Htrue | split; [exact Hfault | split;
            [exact Hxml | split; [exact Hother |]]]]].
  - destruct (file_type_cases ft) as [Hs | [Hx | (Hj & Hy & Hx)]].
    + destruct (do_validate L data schema) as [[] | e] eqn:Hv.
      * exists true. rewrite validate_data_structured, Hv by exact Hs.
        reflexivity.
      * exists false. exact (Hfault Hs e eq_refl).
    + subst ft. rewrite validate_data_xml.
      destruct (xml_block L fs data schema) as [[b | e] t];
        [exists b | exists false]; reflexivity.
    + exists false. exact (Hother Hj Hy Hx).
  - intros e Hft He HV HS HU.
    rewrite validate_data_structured, He, dispatch_unanticipated by auto.
    reflexivity.
Qed.

(** C6: the JSON and the YAML branch run the same validation and give the
    same result, log included:
    [validate_data(doc, schema, 'json') = validate_data(doc, schema, 'yaml')]. *)
Theorem validate_data_json_yaml_agree (data schema : pyval) :
  validate_data L fs data schema "json" = validate_data L fs data schema "yaml".
Proof. reflexivity. Qed.

(** C9: inside [validate_data] the name [lxml] is unbound (the import binds
    [lxml_ET] only), so evaluating the first inner [except] expression
    raises [NameError]; no inner handler ever runs.  Whatever the inner XML
    block raises, the inner [try] statement is left with that [NameError],
    and it is the outer generic handler that turns the run into [False]. *)
Theorem xml_inner_handlers_never_run
    (data schema : pyval) (e : exn) (t : list event) :
  xml_block L fs data schema = (Raise e, t) ->
  name_bound validate_data_scope "lxml_ET" = true
  /\ name_bound validate_data_scope "lxml" = false
  /\ eval_handler_expr validate_data_scope h_XMLSchemaError = inr lxml_name_error
  /\ (forall e', dispatch validate_data_scope xml_handlers e'
                 = raise lxml_name_error)
  /\ try_except validate_data_scope (xml_block L fs data schema) xml_handlers
     = (Raise lxml_name_error, t)
  /\ dispatch validate_data_scope validate_handlers lxml_name_error
     = (Ret false,
        [ELog EXCEPTION
           "An unexpected error occurred: name 'lxml' is not defined"])
  /\ validate_data L fs data schema "xml"
     = (Ret false,
        t ++ [ELog EXCEPTION
                "An unexpected error occurred: name 'lxml' is not defined"]).
Proof.
  intros Hblock. repeat split.
  - unfold try_except. rewrite Hblock, xml_dispatch_fails. cbn.
    rewrite app_nil_r. reflexivity.
  - rewrite validate_data_xml, Hblock. reflexivity.
Qed.

End Validator.

(** ** The loaders and the orchestrator *)

Section Loaders.

Variable L : Libs.
Variable fs : gmap string file.

Lemma never_app (p : event -> bool) (t1 t2 : list event) :
  never p t1 -> never p t2 -> never p (t1 ++ t2).
Proof.
  unfold never. intros H1 H2. rewrite existsb_app, H1, H2. reflexivity.
Qed.

Lemma loader_events_no_validation (t : list event) :
  forallb is_loader_event t = true ->
  never is_validation_call t /\ never is_verdict_line t.
Proof.
  unfold never. induction t as [| ev t IH]; cbn; [intros _; split; reflexivity |].
  intros H. apply andb_prop in H as [Hev Ht]. destruct (IH Ht) as [IH1 IH2].
  rewrite IH1, IH2.
  destruct ev as [lvl msg | line | path | []]; cbn in *;
    try discriminate; split; reflexivity.
Qed.

Lemma open_r_readable (path : string) (f : file) :
  fs !! path = Some f -> readable f = true ->
  open_r fs path = (Ret (content f), [EOpen path]).
Proof. intros Hf Hr. unfold open_r. cbn. rewrite Hf, Hr. reflexivity. Qed.

(** The path check, evaluated. *)
Lemma is_valid_file_path_cases (path : string) :
  is_valid_file_path fs path
  = match fs !! path with
    | Some f =>
        if readable f then (Ret true, [])
        else (Ret false, [ELog WARNING ("File is not readable: " ++ path)])
    | None =>
        if name_too_long path then
          (Ret false,
           [ELog ERROR
              ("Error checking file path: [Errno 36] File name too long: '"
               ++ path ++ "'")])
        else
          (Ret false,
           [ELog WARNING ("File does not exist or is not a file: " ++ path)])
    end.
Proof.
  unfold is_valid_file_path, is_file, os_access_R_OK, try_except.
  destruct (fs !! path) as [f |]; cbn.
  - destruct (readable f); reflexivity.
  - destruct (name_too_long path); reflexivity.
Qed.

Lemma is_valid_file_path_readable (path : string) :
  readable_file fs path -> is_valid_file_path fs path = (Ret true, []).
Proof.
  intros (f & Hf & Hr). rewrite is_valid_file_path_cases, Hf, Hr. reflexivity.
Qed.

Ltac loader_case :=
  match goal with
  | |- context [@lookup _ _ (gmap string file) _ ?p ?m] =>
      destruct (@lookup _ _ (gmap string file) _ p m) as [? |] eqn:?
  | |- context [readable ?f] => destruct (readable f) eqn:?
  | |- context [String.eqb ?a ?b] => destruct (String.eqb a b) eqn:?
  | |- context [do_json_load ?l ?x] => destruct (do_json_load l x) eqn:?
  | |- context [do_yaml_safe_load ?l ?x] => destruct (do_yaml_safe_load l x) eqn:?
  | |- context [do_ET_parse ?l ?x] => destruct (do_ET_parse l x) eqn:?
  | |- context [isinstance ?e ?c] => destruct (isinstance e c) eqn:?
  end.

Lemma load_data_events (path ft : string) :
  forallb is_loader_event (snd (load_data L fs path ft)) = true.
Proof.
  unfold load_data, load_data_try_block, load_data_handlers, try_except, open_r. cbn.
  repeat (loader_case; cbn); reflexivity.
Qed.

Lemma load_schema_events (path ft : string) :
  forallb is_loader_event (snd (load_schema L fs path ft)) = true.
Proof.
  unfold load_schema, load_schema_try_block, load_schema_handlers, try_except, open_r. cbn.
  repeat (loader_case; cbn); reflexivity.
Qed.

(** The handlers of the loaders log and re-raise: what the [try] block
    raises leaves the loader unchanged, after at most one log record. *)
Lemma load_data_propagates (path ft : string) (e : exn) (t : list event) :
  load_data_try_block L fs path ft = (Raise e, t) ->
  exists t', load_data L fs path ft = (Raise e, t ++ t')
             /\ forallb is_log t' = true.
Proof.
  intros Hb. unfold load_data, try_except. rewrite Hb. cbn.
  repeat (loader_case; cbn); eexists; split; reflexivity.
Qed.

Lemma load_schema_propagates (path ft : string) (e : exn) (t : list event) :
  load_schema_try_block L fs path ft = (Raise e, t) ->
  exists t', load_schema L fs path ft = (Raise e, t ++ t')
             /\ forallb is_log t' = true.
Proof.
  intros Hb. unfold load_schema, try_except. rewrite Hb. cbn.
  repeat (loader_case; cbn); eexists; split; reflexivity.
Qed.

Lemma main_readable (fp sp ft : string) :
  readable_file fs fp -> readable_file fs sp ->
  main L fs fp sp ft
  = try_except main_scope (main_try_block L fs fp sp ft)
      [ (h_Exception, fun e => print ("An error occurred: " ++ exn_msg e)) ].
Proof.
  intros Hfp Hsp. unfold main.
  rewrite (is_valid_file_path_readable fp Hfp). cbn.
  rewrite (is_valid_file_path_readable sp Hsp). cbn.
  destruct (try_except _ _ _). reflexivity.
Qed.

Lemma main_handler (e : exn) (t : list event) :
  try_except main_scope (Raise e, t)
    [ (h_Exception, fun e => print ("An error occurred: " ++ exn_msg e)) ]
  = if isinstance e Exception
    then (Ret tt, t ++ [EPrint ("An error occurred: " ++ exn_msg e)])
    else (Raise e, t ++ []).
Proof. cbn. destruct (isinstance e Exception); reflexivity. Qed.

(** How the [try] block of [main] ends when a loader raises. *)
Lemma main_try_block_load_fault (fp sp ft : string) (e : exn) (t : list event) :
  load_data L fs fp ft = (Raise e, t)
  \/ (exists d t0, load_data L fs fp ft = (Ret d, t0)
                   /\ load_schema L fs sp ft = (Raise e, t)) ->
  exists t', main_try_block L fs fp sp ft = (Raise e, t')
             /\ forallb is_loader_event t' = true.
Proof.
  intros [Hd | (d & t0 & Hd & Hs)].
  - exists t. unfold main_try_block. rewrite Hd. split; [reflexivity |].
    pose proof (load_data_events fp ft) as H. rewrite Hd in H. exact H.
  - exists (t0 ++ t). unfold main_try_block. rewrite Hd. cbn. rewrite Hs.
    split; [reflexivity |].
    pose proof (load_data_events fp ft) as H1. rewrite Hd in H1.
    pose proof (load_schema_events sp ft) as H2. rewrite Hs in H2.
    rewrite forallb_app. cbn in H1, H2. rewrite H1, H2. reflexivity.
Qed.

Lemma main_load_fault (fp sp ft : string) (e : exn) (t : list event) :
  readable_file fs fp -> readable_file fs sp ->
  load_data L fs fp ft = (Raise e, t)
  \/ (exists d t0, load_data L fs fp ft = (Ret d, t0)
                   /\ load_schema L fs sp ft = (Raise e, t)) ->
  never is_validation_call (snd (main L fs fp sp ft))
  /\ never is_verdict_line (snd (main L fs fp sp ft))
  /\ (isinstance e Exception = true ->
      exists t', main L fs fp sp ft
                 = (Ret tt, t' ++ [EPrint ("An error occurred: " ++ exn_msg e)]))
  /\ (isinstance e Exception = false -> fst (main L fs fp sp ft) = Raise e).
Proof.
  intros Hfp Hsp Hfault.
  destruct (main_try_block_load_fault fp sp ft e t Hfault) as (t' & Hb & Hev).
  destruct (loader_events_no_validation t' Hev) as [Hnv Hnl].
  rewrite (main_readable fp sp ft Hfp Hsp), Hb, main_handler.
  destruct (isinstance e Exception); cbn [fst snd].
  - repeat split.
    + apply never_app; [exact Hnv | reflexivity].
    + apply never_app; [exact Hnl | reflexivity].
    + intros _. exists t'. reflexivity.
    + discriminate.
  - rewrite app_nil_r. repeat split; try assumption. discriminate.
Qed.

Lemma load_returns_None (path : string) (f : file) :
  fs !! path = Some f -> readable f = true ->
  (do_json_load L (content f) = Ret PNone ->
   load_data L fs path "json" = (Ret PNone, [EOpen path; ECall json_load])
   /\ load_schema L fs path "json" = (Ret PNone, [EOpen path; ECall json_load]))
  /\ (do_yaml_safe_load L (content f) = Ret PNone ->
      load_data L fs path "yaml" = (Ret PNone, [EOpen path; ECall yaml_safe_load])
      /\ load_schema L fs path "yaml"
         = (Ret PNone, [EOpen path; ECall yaml_safe_load])).
Proof.
  intros Hf Hr.
  unfold load_data, load_schema, load_data_try_block, load_schema_try_block, load_data_handlers, load_schema_handlers, try_except, open_r. cbn. rewrite Hf, Hr. cbn.
  split; intros ->; split; reflexivity.
Qed.

(** C4: with a format tag other than json, yaml and xml, [load_data] and
    [load_schema] (given a file they can open) raise [ValueError] with the
    message "Unsupported file type." / "Unsupported schema file type.", and
    [validate_data] returns [False] after logging "Error during validation:
    Unsupported file type." without raising; none of the three calls a
    parser or any other library function. *)
Theorem unsupported_format_rejected_without_parsing
    (ft fp sp : string) (data schema : pyval) :
  ft <> "json" -> ft <> "yaml" -> ft <> "xml" ->
  (readable_file fs fp ->
   load_data L fs fp ft
   = (Raise (mkExn ValueError "Unsupported file type."),
      [EOpen fp; ELog ERROR "Error loading data: Unsupported file type."]))
  /\ (readable_file fs sp ->
      load_schema L fs sp ft
      = (Raise (mkExn ValueError "Unsupported schema file type."),
         [EOpen sp;
          ELog ERROR "Error loading schema: Unsupported schema file type."]))
  /\ validate_data L fs data schema ft
     = (Ret false, [ELog ERROR "Error during validation: Unsupported file type."])
  /\ never is_call (snd (load_data L fs fp ft))
  /\ never is_call (snd (load_schema L fs sp ft))
  /\ never is_call (snd (validate_data L fs data schema ft)).
Proof.
  intros Hj Hy Hx.
  rewrite (validate_data_unsupported L fs data schema ft Hj Hy Hx).
  apply String.eqb_neq in Hj, Hy, Hx.
  unfold load_data, load_schema, load_data_try_block, load_schema_try_block, load_data_handlers, load_schema_handlers, try_except, open_r, readable_file. cbn.
  rewrite Hj, Hy, Hx.
  repeat split.
  - intros (f & -> & ->). reflexivity.
  - intros (f & -> & ->). reflexivity.
  - repeat (loader_case; cbn); reflexivity.
  - repeat (loader_case; cbn); reflexivity.
Qed.

(** C7: a fault of a loader is not recovered from.  Whatever the [try]
    block of [load_data] or [load_schema] raises (a parse fault, the
    [ValueError] of an unsupported tag, a fault of [open]), the loader logs
    at most one record and raises that same exception to its caller.  When
    a loader raises, [main] makes no validation call and prints no verdict:
    it prints "An error occurred: <message>" (a fault outside [Exception]
    goes through [main] as it is). *)
Theorem loader_fault_ends_run
    (fp sp ft : string) (e : exn) (t : list event) :
  readable_file fs fp -> readable_file fs sp ->
  load_data L fs fp ft = (Raise e, t)
  \/ (exists d t0, load_data L fs fp ft = (Ret d, t0)
                   /\ load_schema L fs sp ft = (Raise e, t)) ->
  (forall path ft' e' t0,
      load_data_try_block L fs path ft' = (Raise e', t0) ->
      exists t', load_data L fs path ft' = (Raise e', t0 ++ t')
                 /\ forallb is_log t' = true)
  /\ (forall path ft' e' t0,
        load_schema_try_block L fs path ft' = (Raise e', t0) ->
        exists t', load_schema L fs path ft' = (Raise e', t0 ++ t')
                   /\ forallb is_log t' = true)
  /\ never is_validation_call (snd (main L fs fp sp ft))
  /\ never is_verdict_line (snd (main L fs fp sp ft))
  /\ (isinstance e Exception = true ->
      exists t', main L fs fp sp ft
                 = (Ret tt, t' ++ [EPrint ("An error occurred: " ++ exn_msg e)]))
  /\ (isinstance e Exception = false -> fst (main L fs fp sp ft) = Raise e).
Proof.
  intros Hfp Hsp Hfault. split; [| split].
  - exact load_data_propagates.
  - exact load_schema_propagates.
  - exact (main_load_fault fp sp ft e t Hfp Hsp Hfault).
Qed.

(** C8: for the xml format [load_schema] calls no parser, whatever the
    path; given a file it can open, it returns the given path itself, as a
    string, and the only event is the [open]. *)
Theorem load_schema_xml_keeps_path (path : string) :
  never is_call (snd (load_schema L fs path "xml"))
  /\ (readable_file fs path ->
      load_schema L fs path "xml" = (Ret (PStr path), [EOpen path])).
Proof.
  unfold load_schema, load_schema_try_block, load_schema_handlers, try_except,
    open_r, readable_file. cbn.
  split.
  - repeat (loader_case; cbn); reflexivity.
  - intros (f & -> & ->). reflexivity.
Qed.

(** C10: when the parser yields [None] for a JSON or YAML file, [load_data]
    and [load_schema] return [None]: nothing is raised, nothing is logged.
    When either loader returns [None], [main] makes no validation call and
    prints neither verdict line; if both loaders return, it prints "Failed
    to load data or schema.". *)
Theorem null_document_never_validated (fp sp ft : string) :
  readable_file fs fp -> readable_file fs sp ->
  fst (load_data L fs fp ft) = Ret PNone
  \/ fst (load_schema L fs sp ft) = Ret PNone ->
  (forall path f,
      fs !! path = Some f -> readable f = true ->
      (do_json_load L (content f) = Ret PNone ->
       load_data L fs path "json" = (Ret PNone, [EOpen path; ECall json_load])
       /\ load_schema L fs path "json"
          = (Ret PNone, [EOpen path; ECall json_load]))
      /\ (do_yaml_safe_load L (content f) = Ret PNone ->
          load_data L fs path "yaml"
          = (Ret PNone, [EOpen path; ECall yaml_safe_load])
          /\ load_schema L fs path "yaml"
             = (Ret PNone, [EOpen path; ECall yaml_safe_load])))
  /\ never is_validation_call (snd (main L fs fp sp ft))
  /\ never is_verdict_line (snd (main L fs fp sp ft))
  /\ (forall d s t1 t2,
        load_data L fs fp ft = (Ret d, t1) ->
        load_schema L fs sp ft = (Ret s, t2) ->
        main L fs fp sp ft
        = (Ret tt, t1 ++ t2 ++ [EPrint "Failed to load data or schema."])).
Proof.
  intros Hfp Hsp Hnull. split; [exact load_returns_None |].
  destruct (load_data L fs fp ft) as [[d | e] t1] eqn:Hd.
  2: { destruct (main_load_fault fp sp ft e t1 Hfp Hsp (or_introl Hd))
         as (H1 & H2 & _).
       repeat split; try assumption. intros d s t1' t2 Heq. discriminate Heq. }
  destruct (load_schema L fs sp ft) as [[s | e] t2] eqn:Hs.
  2: { destruct (main_load_fault fp sp ft e t2 Hfp Hsp
                   (or_intror (ex_intro _ d (ex_intro _ t1 (conj Hd Hs)))))
         as (H1 & H2 & _).
       repeat split; try assumption. intros d' s t1' t2' _ Heq. discriminate Heq. }
  assert (Hnone : is_not_None d && is_not_None s = false).
  { cbn in Hnull. destruct Hnull as [Hn | Hn]; inversion Hn; subst; cbn;
      [reflexivity | apply andb_false_r]. }
  assert (Hmain : main L fs fp sp ft
                  = (Ret tt, t1 ++ t2 ++ [EPrint "Failed to load data or schema."])).
  { rewrite (main_readable fp sp ft Hfp Hsp). unfold main_try_block.
    rewrite Hd. cbn. rewrite Hs. cbn. rewrite Hnone. reflexivity. }
  pose proof (load_data_events fp ft) as E1. rewrite Hd in E1.
  pose proof (load_schema_events sp ft) as E2. rewrite Hs in E2.
  destruct (loader_events_no_validation t1 E1) as [V1 P1].
  destruct (loader_events_no_validation t2 E2) as [V2 P2].
  rewrite Hmain. cbn [snd]. repeat split.
  - apply never_app; [exact V1 | apply never_app; [exact V2 | reflexivity]].
  - apply never_app; [exact P1 | apply never_app; [exact P2 | reflexivity]].
  - intros d' s' t1' t2' Hd' Hs'. inversion Hd'; inversion Hs'; subst.
    reflexivity.
Qed.

End Loaders.

(** ** Conformance of structured documents *)

Section Conformance.

Variable L : Libs.
Variable fs : gmap string file.


End Conformance.

(** ** Runs of the script on the fixture *)

Section Runs.
Import Fixture.

(** Scenario A: the document of [__main__] against its schema. *)
Example run_conformant :
  main libs disk "data.json" "schema.json" "json"
  = (Ret tt,
     [EOpen "data.json"; ECall json_load; EOpen "schema.json"; ECall json_load;
      ECall jsonschema_validate; EPrint "Data validation successful."]).
Proof. vm_compute. reflexivity. Qed.

(** Scenario B: [age] is a string. *)
Example run_wrong_type :
  main libs disk "bad_age.json" "schema.json" "json"
  = (Ret tt,
     [EOpen "bad_age.json"; ECall json_load; EOpen "schema.json";
      ECall json_load; ECall jsonschema_validate;
      ELog ERROR "Validation error: 'thirty' is not of type 'integer'";
      EPrint "Data validation failed."]).
Proof. vm_compute. reflexivity. Qed.

(** Scenario D, first half: the item is an integer. *)
Example run_xml_conformant :
  main libs disk "one.xml" "item.xsd" "xml"
  = (Ret tt,
     [EOpen "one.xml"; ECall ET_parse; EOpen "item.xsd";
      ECall lxml_import; ECall lxml_parse; ECall lxml_XMLSchema;
      ECall ET_tostring; ECall lxml_fromstring; ECall assertValid;
      EPrint "Data validation successful."]).
Proof. vm_compute. reflexivity. Qed.

(** C3: the XML branch runs its two phases in order (compile the XSD, then
    serialize, re-parse and assert), but what the library reports is lost.
    For the item [abc] against an XSD that wants an integer, [assertValid]
    raises [DocumentInvalid] with its diagnostic; for a garbled XSD,
    [lxml.etree.parse] raises [XMLSyntaxError].  In both runs
    [validate_data] returns [False] with one and the same record, the
    [NameError] of the inner [except] clause, and neither diagnostic. *)
Theorem xml_diagnostic_is_lost :
  do_assertValid libs tt (serialize (item_doc "abc"))
  = Raise (mkExn DocumentInvalid
             "Element 'item': 'abc' is not a valid value of the atomic type 'xs:integer'.")
  /\ validate_data libs disk (PElem (item_doc "abc")) (PStr "item.xsd") "xml"
     = (Ret false,
        [ECall lxml_import; ECall lxml_parse; ECall lxml_XMLSchema;
         ECall ET_tostring; ECall lxml_fromstring; ECall assertValid;
         ELog EXCEPTION
           "An unexpected error occurred: name 'lxml' is not defined"])
  /\ do_lxml_parse libs disk (PStr "garbled.xsd")
     = Raise (mkExn XMLSyntaxError
                "Start tag expected, '<' not found, line 1, column 1")
  /\ validate_data libs disk (PElem (item_doc "1")) (PStr "garbled.xsd") "xml"
     = (Ret false,
        [ECall lxml_import; ECall lxml_parse;
         ELog EXCEPTION
           "An unexpected error occurred: name 'lxml' is not defined"]).
Proof. repeat split; vm_compute; reflexivity. Qed.

(** C1, as stated, fails: the schema [{type: nonexistent-type}] is rejected
    by the library with [SchemaError], the document with a string [age] is
    rejected with [ValidationError], and [validate_data] hands the caller
    the same value in both runs. *)
Lemma schema_error_same_return_value :
  do_validate libs person bad_type_schema
  = Raise (mkExn SchemaError
             "'nonexistent-type' is not valid under any of the given schemas")
  /\ do_validate libs person_bad_age person_schema
     = Raise (mkExn ValidationError "'thirty' is not of type 'integer'")
  /\ fst (validate_data libs disk person bad_type_schema "json")
     = fst (validate_data libs disk person_bad_age person_schema "json")
  /\ fst (validate_data libs disk person bad_type_schema "yaml")
     = fst (validate_data libs disk person_bad_age person_schema "yaml").
Proof. repeat split; vm_compute; reflexivity. Qed.

(** C2, as stated, fails: an unsupported format, a nonconforming document,
    a rejected schema and an unanticipated fault of the library all reach
    the caller as the one value [False]; the caller observes two values,
    not four variants. *)
Lemma four_failures_one_return_value :
  fst (validate_data libs disk person person_schema "csv") = Ret false
  /\ fst (validate_data libs disk person_bad_age person_schema "json") = Ret false
  /\ fst (validate_data libs disk person bad_type_schema "json") = Ret false
  /\ do_validate libs person dangling_ref_schema
     = Raise (mkExn RefResolutionError
                "Unresolvable JSON pointer: 'definitions/missing'")
  /\ fst (validate_data libs disk person dangling_ref_schema "json") = Ret false.
Proof. repeat split; vm_compute; reflexivity. Qed.


End Runs.

(** ** The theorems at concrete inputs *)

Section Witnesses.
Import Fixture.

Lemma disk_readable_data : readable_file disk "data.json".
Proof. exists (text_file person_text). split; reflexivity. Defined.

Lemma disk_readable_schema : readable_file disk "schema.json".
Proof. exists (text_file person_schema_text). split; reflexivity. Defined.

Lemma disk_readable_broken : readable_file disk "broken.json".
Proof. exists (text_file broken_text). split; reflexivity. Defined.

Lemma disk_readable_null : readable_file disk "null.json".
Proof. exists (text_file "null"). split; reflexivity. Defined.

Lemma disk_readable_xsd : readable_file disk "item.xsd".
Proof. exists (text_file item_xsd_text). split; reflexivity. Defined.

Lemma schema_error_logged_not_returned_witness :
  validate_data libs disk person bad_type_schema "json"
  = (Ret false,
     [ECall jsonschema_validate;
      ELog ERROR
        "Schema error: 'nonexistent-type' is not valid under any of the given schemas"])
  /\ validate_data libs disk person_bad_age person_schema "json"
     = (Ret false,
        [ECall jsonschema_validate;
         ELog ERROR "Validation error: 'thirty' is not of type 'integer'"]).
Proof.
  destruct (schema_error_logged_not_returned libs disk
              person bad_type_schema person_bad_age person_schema "json"
              (mkExn SchemaError
                 "'nonexistent-type' is not valid under any of the given schemas")
              (mkExn ValidationError "'thirty' is not of type 'integer'")
              (or_introl eq_refl) eq_refl eq_refl eq_refl eq_refl)
    as (H1 & H2 & _).
  split; [exact H1 | exact H2].
Defined.

Lemma validate_data_never_raises_witness :
  (exists b, fst (validate_data libs disk person dangling_ref_schema "json")
             = Ret b)
  /\ validate_data libs disk person dangling_ref_schema "json"
     = (Ret false,
        [ECall jsonschema_validate;
         ELog EXCEPTION
           "An unexpected error occurred: Unresolvable JSON pointer: 'definitions/missing'"]).
Proof.
  assert (Hlib : forall e, do_validate libs person dangling_ref_schema = Raise e ->
                           isinstance e Exception = true).
  { intros e H. vm_compute in H. inversion H. reflexivity. }
  destruct (validate_data_never_raises libs disk
              person dangling_ref_schema "json" Hlib)
    as (H1 & _ & _ & _ & _ & H2).
  split; [exact H1 |].
  exact (H2 (mkExn RefResolutionError
               "Unresolvable JSON pointer: 'definitions/missing'")
            (or_introl eq_refl) eq_refl eq_refl eq_refl eq_refl).
Defined.

Lemma unsupported_format_rejected_without_parsing_witness :
  load_data libs disk "data.json" "csv"
  = (Raise (mkExn ValueError "Unsupported file type."),
     [EOpen "data.json"; ELog ERROR "Error loading data: Unsupported file type."])
  /\ load_schema libs disk "schema.json" "csv"
     = (Raise (mkExn ValueError "Unsupported schema file type."),
        [EOpen "schema.json";
         ELog ERROR "Error loading schema: Unsupported schema file type."])
  /\ validate_data libs disk person person_schema "csv"
     = (Ret false, [ELog ERROR "Error during validation: Unsupported file type."]).
Proof.
  assert (Hj : "csv" <> "json") by discriminate.
  assert (Hy : "csv" <> "yaml") by discriminate.
  assert (Hx : "csv" <> "xml") by discriminate.
  destruct (unsupported_format_rejected_without_parsing libs disk
              "csv" "data.json" "schema.json" person person_schema Hj Hy Hx)
    as (H1 & H2 & H3 & _).
  split; [| split];
    [exact (H1 disk_readable_data) | exact (H2 disk_readable_schema) | exact H3].
Defined.


Lemma loader_fault_ends_run_witness :
  (exists t', load_data libs disk "broken.json" "json"
              = (Raise (mkExn JSONDecodeError
                          "Expecting value: line 1 column 9 (char 8)"),
                 [EOpen "broken.json"; ECall json_load] ++ t')
              /\ forallb is_log t' = true)
  /\ never is_validation_call
       (snd (main libs disk "broken.json" "schema.json" "json"))
  /\ exists t',
       main libs disk "broken.json" "schema.json" "json"
       = (Ret tt,
          t' ++ [EPrint "An error occurred: Expecting value: line 1 column 9 (char 8)"]).
Proof.
  destruct (loader_fault_ends_run libs disk "broken.json" "schema.json" "json"
              (mkExn JSONDecodeError "Expecting value: line 1 column 9 (char 8)")
              [EOpen "broken.json"; ECall json_load;
               ELog ERROR
                 "Error loading data: Expecting value: line 1 column 9 (char 8)"]
              disk_readable_broken disk_readable_schema
              (or_introl eq_refl))
    as (H1 & _ & H2 & _ & H3 & _).
  split; [| split].
  - exact (H1 "broken.json" "json" _ _ eq_refl).
  - exact H2.
  - exact (H3 eq_refl).
Defined.

Lemma load_schema_xml_keeps_path_witness :
  load_schema libs disk "item.xsd" "xml" = (Ret (PStr "item.xsd"), [EOpen "item.xsd"]).
Proof.
  exact (proj2 (load_schema_xml_keeps_path libs disk "item.xsd")
           disk_readable_xsd).
Defined.

Lemma xml_inner_handlers_never_run_witness :
  validate_data libs disk (PElem (item_doc "abc")) (PStr "item.xsd") "xml"
  = (Ret false,
     [ECall lxml_import; ECall lxml_parse; ECall lxml_XMLSchema;
      ECall ET_tostring; ECall lxml_fromstring; ECall assertValid]
     ++ [ELog EXCEPTION
           "An unexpected error occurred: name 'lxml' is not defined"]).
Proof.
  destruct (xml_inner_handlers_never_run libs disk
              (PElem (item_doc "abc")) (PStr "item.xsd")
              (mkExn DocumentInvalid
                 "Element 'item': 'abc' is not a valid value of the atomic type 'xs:integer'.")
              [ECall lxml_import; ECall lxml_parse; ECall lxml_XMLSchema;
               ECall ET_tostring; ECall lxml_fromstring; ECall assertValid]
              eq_refl)
    as (_ & _ & _ & _ & _ & _ & H).
  exact H.
Defined.

Lemma null_document_never_validated_witness :
  load_data libs disk "null.json" "json"
  = (Ret PNone, [EOpen "null.json"; ECall json_load])
  /\ never is_validation_call (snd (main libs disk "null.json" "schema.json" "json"))
  /\ main libs disk "null.json" "schema.json" "json"
     = (Ret tt,
        [EOpen "null.json"; ECall json_load]
        ++ [EOpen "schema.json"; ECall json_load]
        ++ [EPrint "Failed to load data or schema."]).
Proof.
  destruct (null_document_never_validated libs disk
              "null.json" "schema.json" "json"
              disk_readable_null disk_readable_schema (or_introl eq_refl))
    as (H1 & H2 & _ & H3).
  split; [| split].
  - exact (proj1 (proj1 (H1 "null.json" (text_file "null") eq_refl eq_refl)
                    eq_refl)).
  - exact H2.
  - exact (H3 PNone person_schema _ _ eq_refl eq_refl).
Defined.

End Witnesses.

(** * Further properties of the script *)

Ltac branch :=
  match goal with
  | |- context [@lookup _ _ (gmap string file) _ ?p ?m] =>
      destruct (@lookup _ _ (gmap string file) _ p m) as [? |] eqn:?
  | |- context [readable ?f] => destruct (readable f) eqn:?
  | |- context [String.eqb ?a ?b] => destruct (String.eqb a b) eqn:?
  | |- context [do_json_load ?l ?x] => destruct (do_json_load l x) eqn:?
  | |- context [do_yaml_safe_load ?l ?x] => destruct (do_yaml_safe_load l x) eqn:?
  | |- context [do_ET_parse ?l ?x] => destruct (do_ET_parse l x) eqn:?
  | |- context [isinstance ?e ?c] => destruct (isinstance e c) eqn:?
  end.

(** ** The path check and the loaders *)

Section LoaderFaults.

Variable L : Libs.
Variable fs : gmap string file.



(** Which record a loader writes for a fault of its [try] block is decided
    by the class of the fault, in the order of the handlers.  A JSON syntax
    error ([JSONDecodeError], a [ValueError]) is logged without traceback
    as "Error loading data: ..."; a YAML or XML syntax error falls to the
    generic handler and is logged with its traceback. *)
Theorem load_data_fault_record (path ft : string) (e : exn) (t : list event) :
  load_data_try_block L fs path ft = (Raise e, t) ->
  load_data L fs path ft
  = (Raise e,
     t ++ (if isinstance e FileNotFoundError then
             [ELog ERROR ("File not found: " ++ path)]
           else if isinstance e ValueError then
             [ELog ERROR ("Error loading data: " ++ exn_msg e)]
           else if isinstance e Exception then
             [ELog EXCEPTION ("An unexpected error occurred: " ++ exn_msg e)]
           else []))
  /\ (exn_cls e = JSONDecodeError ->
      snd (load_data L fs path ft)
      = t ++ [ELog ERROR ("Error loading data: " ++ exn_msg e)])
  /\ (exn_cls e = YAMLError \/ exn_cls e = ET_ParseError ->
      snd (load_data L fs path ft)
      = t ++ [ELog EXCEPTION ("An unexpected error occurred: " ++ exn_msg e)]).
Proof.
  intros Hb.
  assert (R : load_data L fs path ft
              = (Raise e,
                 t ++ (if isinstance e FileNotFoundError then
                         [ELog ERROR ("File not found: " ++ path)]
                       else if isinstance e ValueError then
                         [ELog ERROR ("Error loading data: " ++ exn_msg e)]
                       else if isinstance e Exception then
                         [ELog EXCEPTION
                            ("An unexpected error occurred: " ++ exn_msg e)]
                       else []))).
  { unfold load_data, try_except. rewrite Hb. cbn.
    repeat (branch; cbn); reflexivity. }
  rewrite R. cbn [snd]. split; [reflexivity | split].
  - intros Hc. destruct e as [c m]. cbn in Hc. subst c. reflexivity.
  - intros Hc. destruct e as [c m]. cbn in Hc.
    destruct Hc; subst c; reflexivity.
Qed.

(** For the json and yaml formats the schema is loaded exactly as a
    document is: on every file system and path the two loaders return the
    same value or raise the same exception, and apart from the wording of
    their log records they emit the same events. *)
Theorem loaders_agree_on_structured (path ft : string) :
  ft = "json" \/ ft = "yaml" ->
  fst (load_data L fs path ft) = fst (load_schema L fs path ft)
  /\ List.filter (fun ev => negb (is_log ev)) (snd (load_data L fs path ft))
     = List.filter (fun ev => negb (is_log ev)) (snd (load_schema L fs path ft))
  /\ map (fun ev => match ev with ELog lvl _ => Some lvl | _ => None end)
         (snd (load_data L fs path ft))
     = map (fun ev => match ev with ELog lvl _ => Some lvl | _ => None end)
           (snd (load_schema L fs path ft)).
Proof.
  unfold load_data, load_schema, load_data_try_block, load_schema_try_block,
    load_data_handlers, load_schema_handlers, try_except, open_r.
  intros [-> | ->]; cbn; repeat (branch; cbn); repeat split; reflexivity.
Qed.

End LoaderFaults.

(** ** The verdict of [validate_data] *)

Section Verdict.

Variable L : Libs.
Variable fs : gmap string file.

Lemma derives_from_Exception (e : exn) (c : exn_class) :
  In c [ValidationError; SchemaError; ValueError] ->
  isinstance e c = true -> isinstance e Exception = true.
Proof.
  destruct e as [cl m].
  intros [<- | [<- | [<- | []]]]; destruct cl; vm_compute; congruence.
Qed.

Lemma ValueError_not_jsonschema (e : exn) :
  isinstance e ValueError = true ->
  isinstance e ValidationError = false /\ isinstance e SchemaError = false.
Proof. destruct e as [[] m]; vm_compute; intros; split; congruence. Qed.

(** The outer handlers, evaluated. *)
Lemma dispatch_validate (e : exn) :
  dispatch validate_data_scope validate_handlers e
  = if isinstance e ValidationError then
      (Ret false, [ELog ERROR ("Validation error: " ++ exn_msg e)])
    else if isinstance e SchemaError then
      (Ret false, [ELog ERROR ("Schema error: " ++ exn_msg e)])
    else if isinstance e ValueError then
      (Ret false, [ELog ERROR ("Error during validation: " ++ exn_msg e)])
    else if isinstance e Exception then
      (Ret false,
       [ELog EXCEPTION ("An unexpected error occurred: " ++ exn_msg e)])
    else (Raise e, []).
Proof. cbn. repeat (branch; cbn); reflexivity. Qed.

(** The inner block of the XML branch, step by step. *)
Lemma xml_block_steps (data schema : pyval) :
  xml_block L fs data schema
  = match do_lxml_import L with
    | Raise e => (Raise e, [ECall lxml_import])
    | Ret _ =>
      match do_lxml_parse L fs schema with
      | Raise e => (Raise e, [ECall lxml_import; ECall lxml_parse])
      | Ret tree =>
        match do_lxml_XMLSchema L tree with
        | Raise e =>
            (Raise e, [ECall lxml_import; ECall lxml_parse; ECall lxml_XMLSchema])
        | Ret xs =>
          match do_ET_tostring L data with
          | Raise e =>
              (Raise e, [ECall lxml_import; ECall lxml_parse;
                         ECall lxml_XMLSchema; ECall ET_tostring])
          | Ret text =>
            match do_lxml_fromstring L text with
            | Raise e =>
                (Raise e, [ECall lxml_import; ECall lxml_parse;
                           ECall lxml_XMLSchema; ECall ET_tostring;
                           ECall lxml_fromstring])
            | Ret doc =>
              match do_assertValid L xs doc with
              | Raise e =>
                  (Raise e, [ECall lxml_import; ECall lxml_parse;
                             ECall lxml_XMLSchema; ECall ET_tostring;
                             ECall lxml_fromstring; ECall assertValid])
              | Ret _ =>
                  (Ret true, [ECall lxml_import; ECall lxml_parse;
                              ECall lxml_XMLSchema; ECall ET_tostring;
                              ECall lxml_fromstring; ECall assertValid])
              end
            end
          end
        end
      end
    end.
Proof.
  unfold xml_block. cbn.
  destruct (do_lxml_import L); cbn; [| reflexivity].
  destruct (do_lxml_parse L fs schema) as [tree |]; cbn; [| reflexivity].
  destruct (do_lxml_XMLSchema L tree) as [xs |]; cbn; [| reflexivity].
  destruct (do_ET_tostring L data) as [text |]; cbn; [| reflexivity].
  destruct (do_lxml_fromstring L text) as [doc |]; cbn; [| reflexivity].
  destruct (do_assertValid L xs doc); reflexivity.
Qed.

Lemma validate_data_cases (data schema : pyval) (ft : string) :
  (ft = "json" \/ ft = "yaml") \/ ft = "xml"
  \/ (ft <> "json" /\ ft <> "yaml" /\ ft <> "xml").
Proof.
  destruct (String.eqb ft "json") eqn:Ej;
    [apply String.eqb_eq in Ej; auto | apply String.eqb_neq in Ej].
  destruct (String.eqb ft "yaml") eqn:Ey;
    [apply String.eqb_eq in Ey; auto | apply String.eqb_neq in Ey].
  destruct (String.eqb ft "xml") eqn:Ex;
    [apply String.eqb_eq in Ex; auto | apply String.eqb_neq in Ex].
  auto.
Qed.

(** [validate_data] answers [True] only when the library accepted: for
    json and yaml when [jsonschema.validate] returned, for xml when each of
    the six steps of the block returned; for any other tag, never. *)
Theorem validate_data_true_iff (data schema : pyval) (ft : string) :
  fst (validate_data L fs data schema ft) = Ret true
  <-> ((ft = "json" \/ ft = "yaml") /\ do_validate L data schema = Ret tt)
      \/ (ft = "xml"
          /\ exists tree xs text doc,
               do_lxml_import L = Ret tt
               /\ do_lxml_parse L fs schema = Ret tree
               /\ do_lxml_XMLSchema L tree = Ret xs
               /\ do_ET_tostring L data = Ret text
               /\ do_lxml_fromstring L text = Ret doc
               /\ do_assertValid L xs doc = Ret tt).
Proof.
  destruct (validate_data_cases data schema ft) as [Hs | [Hx | (Hj & Hy & Hx)]].
  - rewrite validate_data_structured by exact Hs.
    destruct (do_validate L data schema) as [[] | e] eqn:Hv.
    + split; [intros _; left; auto | reflexivity].
    + rewrite dispatch_validate.
      split.
      * repeat (branch; cbn); intros H; discriminate H.
      * intros [[_ H] | [-> _]]; [discriminate H | destruct Hs; discriminate].
  - subst ft. rewrite validate_data_xml, xml_block_steps.
    split.
    + intros H. right. split; [reflexivity |].
      destruct (do_lxml_import L) as [[] |]; [| discriminate H].
      destruct (do_lxml_parse L fs schema) as [tree |]; [| discriminate H].
      destruct (do_lxml_XMLSchema L tree) as [xs |] eqn:H3; [| discriminate H].
      destruct (do_ET_tostring L data) as [text |]; [| discriminate H].
      destruct (do_lxml_fromstring L text) as [doc |] eqn:H5; [| discriminate H].
      destruct (do_assertValid L xs doc) as [[] |] eqn:H6; [| discriminate H].
      exists tree, xs, text, doc. auto 10.
    + intros [[[H | H] _] | [_ (tree & xs & text & doc & -> & -> & -> & -> & -> & ->)]];
        [discriminate H | discriminate H | reflexivity].
  - rewrite validate_data_unsupported by assumption. cbn.
    split; [discriminate |].
    intros [[[H | H] _] | [H _]]; contradiction.
Qed.

(** [validate_data] raises in one situation only: the format is json or
    yaml and [jsonschema.validate] raises a fault that does not derive
    from [Exception]; that fault then leaves [validate_data] unchanged. *)
Theorem validate_data_raises_iff (data schema : pyval) (ft : string) (e : exn) :
  fst (validate_data L fs data schema ft) = Raise e
  <-> (ft = "json" \/ ft = "yaml")
      /\ do_validate L data schema = Raise e
      /\ isinstance e Exception = false.
Proof.
  destruct (validate_data_cases data schema ft) as [Hs | [Hx | (Hj & Hy & Hx)]].
  - rewrite validate_data_structured by exact Hs.
    destruct (do_validate L data schema) as [[] | e0] eqn:Hv.
    + split; [discriminate | intros (_ & H & _); discriminate H].
    + rewrite dispatch_validate. split.
      * repeat (branch; cbn); intros H; try discriminate H.
        all: inversion H; subst; repeat split; auto; congruence.
      * intros (_ & H & HE). inversion H; subst.
        destruct (isinstance e ValidationError) eqn:H1;
          [rewrite (derives_from_Exception e ValidationError) in HE;
           [discriminate | cbn; auto | exact H1] |].
        destruct (isinstance e SchemaError) eqn:H2;
          [rewrite (derives_from_Exception e SchemaError) in HE;
           [discriminate | cbn; auto | exact H2] |].
        destruct (isinstance e ValueError) eqn:H3;
          [rewrite (derives_from_Exception e ValueError) in HE;
           [discriminate | cbn; auto | exact H3] |].
        rewrite HE. reflexivity.
  - subst ft. rewrite validate_data_xml.
    destruct (xml_block L fs data schema) as [[b | e0] t]; cbn.
    + split; [discriminate | intros ([H | H] & _); discriminate H].
    + split; [discriminate | intros ([H | H] & _); discriminate H].
  - rewrite validate_data_unsupported by assumption. cbn.
    split; [discriminate | intros ([H | H] & _); contradiction].
Qed.

(** The [ValueError] handler that reports an unsupported tag also takes
    every [ValueError] the JSON Schema library raises: such a fault ends in
    [False] with a record of the same form, "Error during validation:
    <message>". *)
Theorem library_ValueError_reported_like_unsupported
    (data schema : pyval) (ft : string) (e : exn) :
  ft = "json" \/ ft = "yaml" ->
  do_validate L data schema = Raise e ->
  isinstance e ValueError = true ->
  validate_data L fs data schema ft
  = (Ret false,
     [ECall jsonschema_validate;
      ELog ERROR ("Error during validation: " ++ exn_msg e)]).
Proof.
  intros Hft Hv HE.
  destruct (ValueError_not_jsonschema e HE) as [H1 H2].
  rewrite validate_data_structured, Hv, dispatch_validate, H1, H2, HE
    by exact Hft.
  reflexivity.
Qed.

(** In the XML branch the schema comes first: when the XSD cannot be read
    or compiled, the document is neither serialized, re-parsed nor checked,
    and the answer is [False]. *)
Theorem xml_schema_before_document (data schema : pyval) :
  do_lxml_import L = Ret tt ->
  (exists e, do_lxml_parse L fs schema = Raise e)
  \/ (exists tree e, do_lxml_parse L fs schema = Ret tree
                     /\ do_lxml_XMLSchema L tree = Raise e) ->
  fst (validate_data L fs data schema "xml") = Ret false
  /\ never is_document_call (snd (validate_data L fs data schema "xml")).
Proof.
  intros Hi Hc. rewrite validate_data_xml, xml_block_steps, Hi.
  destruct Hc as [(e & ->) | (tree & e & -> & ->)]; split; reflexivity.
Qed.

(** When [lxml] cannot be imported, an XML validation answers [False] for
    every document and schema, without reading the schema file. *)
Theorem xml_without_lxml (data schema : pyval) (e : exn) :
  do_lxml_import L = Raise e ->
  validate_data L fs data schema "xml"
  = (Ret false,
     [ECall lxml_import;
      ELog EXCEPTION "An unexpected error occurred: name 'lxml' is not defined"]).
Proof.
  intros Hi. rewrite validate_data_xml, xml_block_steps, Hi. reflexivity.
Qed.

Lemma validate_data_events (data schema : pyval) (ft : string) :
  forallb is_validator_event (snd (validate_data L fs data schema ft)) = true.
Proof.
  destruct (validate_data_cases data schema ft) as [Hs | [Hx | (Hj & Hy & Hx)]].
  - rewrite validate_data_structured by exact Hs.
    destruct (do_validate L data schema) as [[] | e]; [reflexivity |].
    rewrite dispatch_validate. repeat (branch; cbn); reflexivity.
  - subst ft. rewrite validate_data_xml, xml_block_steps.
    destruct (do_lxml_import L) as [[] |]; [| reflexivity].
    destruct (do_lxml_parse L fs schema) as [tree |]; [| reflexivity].
    destruct (do_lxml_XMLSchema L tree) as [xs |]; [| reflexivity].
    destruct (do_ET_tostring L data) as [text |]; [| reflexivity].
    destruct (do_lxml_fromstring L text) as [doc |]; [| reflexivity].
    destruct (do_assertValid L xs doc) as [[] |]; reflexivity.
  - rewrite validate_data_unsupported by assumption. reflexivity.
Qed.

End Verdict.

(** ** The orchestrator *)

Section Orchestrator.

Variable L : Libs.
Variable fs : gmap string file.

Lemma filter_none (p q : event -> bool) (t : list event) :
  (forall ev, p ev = true -> q ev = false) ->
  forallb p t = true -> List.filter q t = [].
Proof.
  intros Hpq. induction t as [| ev t IH]; cbn; [reflexivity |].
  intros H. apply andb_prop in H as [Hev Ht].
  rewrite (Hpq ev Hev). exact (IH Ht).
Qed.

Lemma loader_events_no_print (t : list event) :
  forallb is_loader_event t = true -> List.filter is_print t = [].
Proof.
  apply filter_none. intros [lvl msg | line | path | []]; cbn; congruence.
Qed.

Lemma validator_events_no_print (t : list event) :
  forallb is_validator_event t = true -> List.filter is_print t = [].
Proof.
  apply filter_none. intros [lvl msg | line | path | f]; cbn; congruence.
Qed.

(** The [try] block of [main], step by step. *)
Lemma main_try_block_steps (fp sp ft : string) :
  main_try_block L fs fp sp ft
  = match load_data L fs fp ft with
    | (Raise e, t1) => (Raise e, t1)
    | (Ret d, t1) =>
      match load_schema L fs sp ft with
      | (Raise e, t2) => (Raise e, t1 ++ t2)
      | (Ret s, t2) =>
        if is_not_None d && is_not_None s then
          match validate_data L fs d s ft with
          | (Ret b, tv) =>
              (Ret tt,
               t1 ++ t2 ++ tv
               ++ [EPrint (if b then "Data validation successful."
                           else "Data validation failed.")])
          | (Raise e, tv) => (Raise e, t1 ++ t2 ++ tv)
          end
        else (Ret tt, t1 ++ t2 ++ [EPrint "Failed to load data or schema."])
      end
    end.
Proof.
  unfold main_try_block.
  destruct (load_data L fs fp ft) as [[d | e] t1]; cbn; [| reflexivity].
  destruct (load_schema L fs sp ft) as [[s | e] t2]; cbn; [| reflexivity].
  destruct (is_not_None d && is_not_None s); cbn; [| reflexivity].
  destruct (validate_data L fs d s ft) as [[[] | e] tv]; reflexivity.
Qed.

Lemma main_returns (r : unit) (t : list event)
    (hs : list (handler_expr * (exn -> M unit))) :
  try_except main_scope (Ret r, t) hs = (Ret r, t).
Proof. reflexivity. Qed.

(** A path that fails the check ends the run at once: [main] emits the
    one record of the failed check (a warning, or the error of a check
    that raised) and one line, opens no file and calls no library; the
    schema path is looked at only once the data path has passed. *)
Theorem main_rejects_unusable_paths (fp sp ft : string) :
  (~ readable_file fs fp ->
   exists lvl w,
     (lvl = WARNING \/ lvl = ERROR)
     /\ is_valid_file_path fs fp = (Ret false, [ELog lvl w])
     /\ main L fs fp sp ft
        = (Ret tt, [ELog lvl w; EPrint "Invalid file path. Exiting."]))
  /\ (readable_file fs fp -> ~ readable_file fs sp ->
      exists lvl w,
        (lvl = WARNING \/ lvl = ERROR)
        /\ is_valid_file_path fs sp = (Ret false, [ELog lvl w])
        /\ main L fs fp sp ft
           = (Ret tt, [ELog lvl w; EPrint "Invalid schema path. Exiting."])).
Proof.
  assert (Hbad : forall p, ~ readable_file fs p ->
                 exists lvl w, (lvl = WARNING \/ lvl = ERROR)
                   /\ is_valid_file_path fs p = (Ret false, [ELog lvl w])).
  { intros p Hp. rewrite is_valid_file_path_cases.
    destruct (fs !! p) as [f |] eqn:Hf; [destruct (readable f) eqn:Hr |].
    - exfalso. apply Hp. exists f. auto.
    - eexists _, _. split; [left; reflexivity | reflexivity].
    - destruct (name_too_long p); eexists _, _;
        (split; [| reflexivity]); auto. }
  split.
  - intros Hfp. destruct (Hbad fp Hfp) as (lvl & w & Hl & Hw). exists lvl, w.
    repeat split; try assumption.
    unfold main. rewrite Hw. reflexivity.
  - intros Hfp Hsp. destruct (Hbad sp Hsp) as (lvl & w & Hl & Hw).
    exists lvl, w. repeat split; try assumption.
    unfold main. rewrite (is_valid_file_path_readable fs fp Hfp). cbn.
    rewrite Hw. reflexivity.
Qed.

(** Every run of [main] that returns has printed exactly one line; a run
    that a fault outside [Exception] cuts short has printed none. *)
Theorem main_prints_once (fp sp ft : string) :
  match fst (main L fs fp sp ft) with
  | Ret _ => length (List.filter is_print (snd (main L fs fp sp ft))) = 1
  | Raise _ => List.filter is_print (snd (main L fs fp sp ft)) = []
  end.
Proof.
  destruct (fs !! fp) as [f |] eqn:Hf; [destruct (readable f) eqn:Hr |].
  2, 3: unfold main; rewrite is_valid_file_path_cases, Hf; try rewrite Hr;
        try destruct (name_too_long fp); reflexivity.
  assert (Hfp : readable_file fs fp) by (exists f; auto).
  destruct (fs !! sp) as [g |] eqn:Hg; [destruct (readable g) eqn:Hs |].
  2, 3: unfold main; rewrite (is_valid_file_path_readable fs fp Hfp); cbn;
        rewrite is_valid_file_path_cases, Hg; try rewrite Hs;
        try destruct (name_too_long sp); reflexivity.
  assert (Hsp : readable_file fs sp) by (exists g; auto).
  rewrite (main_readable L fs fp sp ft Hfp Hsp), main_try_block_steps.
  pose proof (loader_events_no_print _ (load_data_events L fs fp ft)) as P1.
  pose proof (loader_events_no_print _ (load_schema_events L fs sp ft)) as P2.
  destruct (load_data L fs fp ft) as [[d | e] t1]; cbn [snd] in P1.
  2: { rewrite main_handler. destruct (isinstance e Exception); cbn [fst snd];
       rewrite List.filter_app, P1; reflexivity. }
  destruct (load_schema L fs sp ft) as [[s | e] t2]; cbn [snd] in P2.
  2: { rewrite main_handler. destruct (isinstance e Exception); cbn [fst snd];
       rewrite !List.filter_app, P1, P2; reflexivity. }
  destruct (is_not_None d && is_not_None s).
  2: { rewrite main_returns. cbn [fst snd].
       rewrite !List.filter_app, P1, P2. reflexivity. }
  pose proof (validator_events_no_print _ (validate_data_events L fs d s ft))
    as P3.
  destruct (validate_data L fs d s ft) as [[b | e] tv]; cbn [snd] in P3.
  - rewrite main_returns. cbn [fst snd].
    rewrite !List.filter_app, P1, P2, P3. reflexivity.
  - rewrite main_handler. destruct (isinstance e Exception); cbn [fst snd];
      rewrite !List.filter_app, P1, P2, P3; reflexivity.
Qed.

(** When both files load to values other than [None], [main] hands exactly
    these two values to [validate_data] and prints the line that matches
    its answer; the events are those of the two loaders and of the
    validator, in this order.  A document that is empty or false but not
    [None] is validated like any other. *)
Theorem main_composes
    (fp sp ft : string) (d s : pyval) (b : bool) (t1 t2 tv : list event) :
  readable_file fs fp -> readable_file fs sp ->
  load_data L fs fp ft = (Ret d, t1) ->
  load_schema L fs sp ft = (Ret s, t2) ->
  d <> PNone -> s <> PNone ->
  validate_data L fs d s ft = (Ret b, tv) ->
  main L fs fp sp ft
  = (Ret tt,
     t1 ++ t2 ++ tv
     ++ [EPrint (if b then "Data validation successful."
                 else "Data validation failed.")]).
Proof.
  intros Hfp Hsp Hd Hs Hdn Hsn Hv.
  rewrite (main_readable L fs fp sp ft Hfp Hsp), main_try_block_steps, Hd, Hs.
  assert (Hnn : is_not_None d && is_not_None s = true).
  { destruct d, s; try reflexivity; congruence. }
  rewrite Hnn, Hv. reflexivity.
Qed.

(** "Data validation successful." is printed only when both paths passed
    the check, both loaders returned a value other than [None] and
    [validate_data] answered [True] on these two values. *)
Theorem success_line_is_earned (fp sp ft : string) :
  In (EPrint "Data validation successful.") (snd (main L fs fp sp ft)) ->
  readable_file fs fp /\ readable_file fs sp
  /\ exists d s, fst (load_data L fs fp ft) = Ret d
                 /\ fst (load_schema L fs sp ft) = Ret s
                 /\ d <> PNone /\ s <> PNone
                 /\ fst (validate_data L fs d s ft) = Ret true.
Proof.
  destruct (fs !! fp) as [f |] eqn:Hf; [destruct (readable f) eqn:Hr |].
  2, 3: unfold main; rewrite is_valid_file_path_cases, Hf; try rewrite Hr;
        try destruct (name_too_long fp); cbn;
        intros [H | [H | []]]; discriminate H.
  assert (Hfp : readable_file fs fp) by (exists f; auto).
  destruct (fs !! sp) as [g |] eqn:Hg; [destruct (readable g) eqn:Hs |].
  2, 3: unfold main; rewrite (is_valid_file_path_readable fs fp Hfp); cbn;
        rewrite is_valid_file_path_cases, Hg; try rewrite Hs;
        try destruct (name_too_long sp); cbn;
        intros [H | [H | []]]; discriminate H.
  assert (Hsp : readable_file fs sp) by (exists g; auto).
  intros Hin.
  assert (Hin' : In (EPrint "Data validation successful.")
                    (List.filter is_print (snd (main L fs fp sp ft))))
    by (apply List.filter_In; split; [exact Hin | reflexivity]).
  clear Hin. revert Hin'.
  rewrite (main_readable L fs fp sp ft Hfp Hsp), main_try_block_steps.
  pose proof (loader_events_no_print _ (load_data_events L fs fp ft)) as P1.
  pose proof (loader_events_no_print _ (load_schema_events L fs sp ft)) as P2.
  destruct (load_data L fs fp ft) as [[d | e] t1]; cbn [snd] in P1.
  2: { rewrite main_handler. destruct (isinstance e Exception); cbn [snd];
       rewrite !List.filter_app, P1; cbn; intros H;
       repeat destruct H as [H | H]; try discriminate H; destruct H. }
  destruct (load_schema L fs sp ft) as [[s | e] t2]; cbn [snd] in P2.
  2: { rewrite main_handler. destruct (isinstance e Exception); cbn [snd];
       rewrite !List.filter_app, P1, P2; cbn; intros H;
       repeat destruct H as [H | H]; try discriminate H; destruct H. }
  destruct (is_not_None d && is_not_None s) eqn:Hnn.
  2: { rewrite main_returns. cbn [snd]. rewrite !List.filter_app, P1, P2. cbn.
       intros [H | []]. discriminate H. }
  pose proof (validator_events_no_print _ (validate_data_events L fs d s ft))
    as P3.
  apply andb_prop in Hnn as [Hd Hs'].
  assert (Hdn : d <> PNone) by (intros ->; discriminate Hd).
  assert (Hsn : s <> PNone) by (intros ->; discriminate Hs').
  destruct (validate_data L fs d s ft) as [[b | e] tv] eqn:Hv; cbn [snd] in P3.
  - rewrite main_returns. cbn [snd]. rewrite !List.filter_app, P1, P2, P3. cbn.
    intros [H | []]. destruct b; [| discriminate H].
    repeat split; try assumption. exists d, s. rewrite Hv.
    repeat split; auto.
  - rewrite main_handler. destruct (isinstance e Exception); cbn [snd];
      rewrite !List.filter_app, P1, P2, P3; cbn; intros H;
      repeat destruct H as [H | H]; try discriminate H; destruct H.
Qed.

End Orchestrator.

(** ** Order of loading, command line, example files *)

Section Order.

Variable L : Libs.
Variable fs : gmap string file.

Lemma load_data_opens_only (fp sp ft : string) :
  sp <> fp -> never (opens sp) (snd (load_data L fs fp ft)).
Proof.
  intros Hne. assert (E : String.eqb fp sp = false)
    by (apply String.eqb_neq; congruence).
  unfold never, load_data, load_data_try_block, load_data_handlers, try_except,
    open_r. cbn.
  repeat (branch; cbn; rewrite ?E); reflexivity.
Qed.

(** The data file is loaded first, and a fault there ends the run: [main]
    emits what [load_data] emitted, then "An error occurred: <message>";
    the schema file is not opened. *)
Theorem data_fault_skips_schema
    (fp sp ft : string) (e : exn) (t : list event) :
  readable_file fs fp -> readable_file fs sp ->
  load_data L fs fp ft = (Raise e, t) ->
  isinstance e Exception = true ->
  main L fs fp sp ft
  = (Ret tt, t ++ [EPrint ("An error occurred: " ++ exn_msg e)])
  /\ (sp <> fp -> never (opens sp) (snd (main L fs fp sp ft))).
Proof.
  intros Hfp Hsp Hd HE.
  assert (R : main L fs fp sp ft
              = (Ret tt, t ++ [EPrint ("An error occurred: " ++ exn_msg e)])).
  { rewrite (main_readable L fs fp sp ft Hfp Hsp), main_try_block_steps, Hd,
      main_handler, HE.
    reflexivity. }
  split; [exact R |].
  intros Hne. rewrite R. cbn [snd].
  pose proof (load_data_opens_only fp sp ft Hne) as Ho. rewrite Hd in Ho.
  unfold never in *. cbn [snd] in Ho. rewrite existsb_app, Ho. reflexivity.
Qed.

(** The values the command line admits for [--file_type] are exactly the
    three tags the functions know.  For an admitted tag the "unsupported"
    branches are out of reach: [validate_data] always calls a library, and
    a loader given a readable file calls its parser or, for the schema of
    an xml run, returns the path. *)
Theorem admitted_file_types_are_supported (ft : string) :
  (admits setup_argparse "--file_type" ft = true
   <-> ft = "json" \/ ft = "xml" \/ ft = "yaml")
  /\ (admits setup_argparse "--file_type" ft = true ->
      (forall data schema,
          existsb is_call (snd (validate_data L fs data schema ft)) = true)
      /\ (forall path, readable_file fs path ->
            existsb is_call (snd (load_data L fs path ft)) = true
            /\ (existsb is_call (snd (load_schema L fs path ft)) = true
                \/ load_schema L fs path ft = (Ret (PStr path), [EOpen path])))).
Proof.
  assert (A : admits setup_argparse "--file_type" ft = true
              <-> ft = "json" \/ ft = "xml" \/ ft = "yaml").
  { unfold admits. cbn. rewrite !orb_true_iff, !String.eqb_eq.
    split; [intros [H | [H | [H | H]]]; auto; discriminate H | tauto]. }
  split; [exact A |].
  intros Had. apply A in Had. split.
  - intros data schema.
    destruct Had as [-> | [-> | ->]].
    + rewrite validate_data_structured by auto.
      destruct (do_validate L data schema) as [[] |]; [reflexivity |].
      destruct (dispatch _ _ _); reflexivity.
    + rewrite validate_data_xml, xml_block_steps.
      destruct (do_lxml_import L) as [[] |]; [| reflexivity].
      destruct (do_lxml_parse L fs schema) as [tree |]; [| reflexivity].
      destruct (do_lxml_XMLSchema L tree) as [xs |]; [| reflexivity].
      destruct (do_ET_tostring L data) as [text |]; [| reflexivity].
      destruct (do_lxml_fromstring L text) as [doc |]; [| reflexivity].
      destruct (do_assertValid L xs doc) as [[] |]; reflexivity.
    + rewrite validate_data_structured by auto.
      destruct (do_validate L data schema) as [[] |]; [reflexivity |].
      destruct (dispatch _ _ _); reflexivity.
  - intros path (f & Hf & Hr).
    unfold load_data, load_schema, load_data_try_block, load_schema_try_block,
      load_data_handlers, load_schema_handlers, try_except, open_r.
    rewrite Hf. cbn. rewrite Hr. cbn.
    destruct Had as [-> | [-> | ->]]; cbn;
      repeat (branch; cbn); auto.
Qed.

(** An xml run hands [validate_data] the root element of the data file and
    the schema path as given; once the data file parses, the run always
    ends with one of the two verdict lines, since the XML branch turns
    every fault into [False]. *)
Theorem xml_run_hands_over_root_and_path
    (fp sp : string) (f : file) (root : element) :
  fs !! fp = Some f -> readable f = true -> readable_file fs sp ->
  do_ET_parse L (content f) = Ret root ->
  exists b,
    fst (validate_data L fs (PElem root) (PStr sp) "xml") = Ret b
    /\ main L fs fp sp "xml"
       = (Ret tt,
          [EOpen fp; ECall ET_parse] ++ [EOpen sp]
          ++ snd (validate_data L fs (PElem root) (PStr sp) "xml")
          ++ [EPrint (if b then "Data validation successful."
                      else "Data validation failed.")]).
Proof.
  intros Hf Hr Hsp Hp.
  assert (Hfp : readable_file fs fp) by (exists f; auto).
  assert (Ld : load_data L fs fp "xml" = (Ret (PElem root), [EOpen fp; ECall ET_parse])).
  { unfold load_data, load_data_try_block, try_except, open_r. cbn.
    rewrite Hf, Hr. cbn. rewrite Hp. reflexivity. }
  assert (Ls : load_schema L fs sp "xml" = (Ret (PStr sp), [EOpen sp])).
  { destruct Hsp as (g & Hg & Hgr).
    unfold load_schema, load_schema_try_block, try_except, open_r. cbn.
    rewrite Hg, Hgr. reflexivity. }
  rewrite (main_readable L fs fp sp "xml" Hfp Hsp), main_try_block_steps, Ld, Ls.
  cbn [is_not_None andb].
  rewrite validate_data_xml.
  destruct (xml_block L fs (PElem root) (PStr sp)) as [[b | e] t].
  - exists b. split; reflexivity.
  - exists false. split; reflexivity.
Qed.

End Order.

Section ExampleFiles.

Variable json_dumps : pyval -> string.
Variable L : Libs.

Lemma write_if_missing_keeps (path p : string) (v : pyval)
    (fs : gmap string file) (f : file) :
  fs !! p = Some f -> write_if_missing json_dumps path v fs !! p = Some f.
Proof.
  intros Hp. unfold write_if_missing.
  destruct (fs !! path) eqn:Hpath; [exact Hp |].
  rewrite lookup_insert_ne; [exact Hp |].
  intros ->. congruence.
Qed.

Lemma write_if_missing_present (path : string) (v : pyval)
    (fs : gmap string file) :
  is_Some (write_if_missing json_dumps path v fs !! path).
Proof.
  unfold write_if_missing.
  destruct (fs !! path) eqn:Hpath; [rewrite Hpath; eauto |].
  rewrite lookup_insert_eq. eauto.
Qed.

Lemma write_if_missing_noop (path : string) (v : pyval)
    (fs : gmap string file) :
  is_Some (fs !! path) -> write_if_missing json_dumps path v fs = fs.
Proof. intros [f Hf]. unfold write_if_missing. rewrite Hf. reflexivity. Qed.

Lemma bootstrap_creates (fs : gmap string file) :
  (fs !! "data.json" = None ->
   bootstrap json_dumps fs !! "data.json"
   = Some (mkFile true (json_dumps example_data)))
  /\ (fs !! "schema.json" = None ->
      bootstrap json_dumps fs !! "schema.json"
      = Some (mkFile true (json_dumps example_schema))).
Proof.
  split.
  - intros H1. unfold bootstrap.
    apply write_if_missing_keeps. unfold write_if_missing.
    rewrite H1, lookup_insert_eq. reflexivity.
  - intros H2. unfold bootstrap, write_if_missing.
    destruct (fs !! "data.json") eqn:H1.
    + rewrite H2, lookup_insert_eq. reflexivity.
    + rewrite lookup_insert_ne by discriminate.
      rewrite H2, lookup_insert_eq. reflexivity.
Qed.

(** The guarded writes of [__main__] only fill gaps: a file that exists,
    the user's [data.json] included, keeps its content; every other path
    is left alone; a missing example file is created with the dumped
    example; running the block a second time changes nothing. *)
Theorem bootstrap_only_fills_gaps (fs : gmap string file) :
  (forall path f, fs !! path = Some f ->
                  bootstrap json_dumps fs !! path = Some f)
  /\ (forall path, path <> "data.json" -> path <> "schema.json" ->
                   bootstrap json_dumps fs !! path = fs !! path)
  /\ (fs !! "data.json" = None ->
      bootstrap json_dumps fs !! "data.json"
      = Some (mkFile true (json_dumps example_data)))
  /\ (fs !! "schema.json" = None ->
      bootstrap json_dumps fs !! "schema.json"
      = Some (mkFile true (json_dumps example_schema)))
  /\ bootstrap json_dumps (bootstrap json_dumps fs) = bootstrap json_dumps fs.
Proof.
  repeat split.
  - intros path f Hp. unfold bootstrap.
    apply write_if_missing_keeps, write_if_missing_keeps. exact Hp.
  - intros path Hd Hs. unfold bootstrap, write_if_missing.
    destruct (fs !! "data.json") eqn:H1.
    + destruct (fs !! "schema.json") eqn:H2; [reflexivity |].
      rewrite lookup_insert_ne by congruence. reflexivity.
    + rewrite lookup_insert_ne by discriminate.
      destruct (fs !! "schema.json") eqn:H2;
        rewrite ?lookup_insert_ne by congruence; reflexivity.
  - exact (proj1 (bootstrap_creates fs)).
  - exact (proj2 (bootstrap_creates fs)).
  - unfold bootstrap at 1.
    rewrite (write_if_missing_noop "data.json").
    + apply write_if_missing_noop, write_if_missing_present.
    + unfold bootstrap.
      destruct (write_if_missing_present "data.json" example_data fs) as [f Hf].
      exists f. apply write_if_missing_keeps. exact Hf.
Qed.

(** The example of [__main__] works out of the box: in a directory with
    neither [data.json] nor [schema.json], with a JSON library that reads
    back what it dumped and a validator that accepts the example, the
    command [data.json schema.json --file_type json] passes both path
    checks and prints "Data validation successful.". *)
Theorem example_run_succeeds (fs : gmap string file) :
  fs !! "data.json" = None -> fs !! "schema.json" = None ->
  do_json_load L (json_dumps example_data) = Ret example_data ->
  do_json_load L (json_dumps example_schema) = Ret example_schema ->
  do_validate L example_data example_schema = Ret tt ->
  run_as_script json_dumps L fs "data.json" "schema.json" "json"
  = (Ret tt,
     [EOpen "data.json"; ECall json_load; EOpen "schema.json"; ECall json_load;
      ECall jsonschema_validate; EPrint "Data validation successful."]).
Proof.
  intros H1 H2 Hd Hs Hv.
  destruct (bootstrap_creates fs) as (B1 & B2).
  specialize (B1 H1). specialize (B2 H2).
  unfold run_as_script.
  assert (R1 : readable_file (bootstrap json_dumps fs) "data.json")
    by (eexists; split; [exact B1 | reflexivity]).
  assert (R2 : readable_file (bootstrap json_dumps fs) "schema.json")
    by (eexists; split; [exact B2 | reflexivity]).
  assert (Ld : load_data L (bootstrap json_dumps fs) "data.json" "json"
               = (Ret example_data, [EOpen "data.json"; ECall json_load])).
  { unfold load_data, load_data_try_block, try_except, open_r. cbn.
    rewrite B1. cbn. rewrite Hd. reflexivity. }
  assert (Ls : load_schema L (bootstrap json_dumps fs) "schema.json" "json"
               = (Ret example_schema, [EOpen "schema.json"; ECall json_load])).
  { unfold load_schema, load_schema_try_block, try_except, open_r. cbn.
    rewrite B2. cbn. rewrite Hs. reflexivity. }
  rewrite (main_readable L _ _ _ _ R1 R2), main_try_block_steps, Ld, Ls.
  cbn [is_not_None example_data example_schema andb].
  rewrite validate_data_structured by auto. rewrite Hv. reflexivity.
Qed.

End ExampleFiles.

(** ** The further properties at concrete inputs *)

Section MoreWitnesses.
Import Fixture.


Lemma main_rejects_unusable_paths_witness :
  main libs disk overlong_name "schema.json" "json"
  = (Ret tt,
     [ELog ERROR
        ("Error checking file path: [Errno 36] File name too long: '"
         ++ overlong_name ++ "'");
      EPrint "Invalid file path. Exiting."])
  /\ main libs disk "data.json" "nope.json" "json"
     = (Ret tt,
        [ELog WARNING "File does not exist or is not a file: nope.json";
         EPrint "Invalid schema path. Exiting."]).
Proof.
  assert (Hbad : ~ readable_file disk overlong_name).
  { intros (f & Hf & _). vm_compute in Hf. discriminate Hf. }
  assert (Hnope : ~ readable_file disk "nope.json").
  { intros (f & Hf & _). vm_compute in Hf. discriminate Hf. }
  destruct (main_rejects_unusable_paths libs disk
              overlong_name "schema.json" "json") as [H1 _].
  destruct (main_rejects_unusable_paths libs disk
              "data.json" "nope.json" "json") as [_ H2].
  destruct (H1 Hbad) as (lvl & w & _ & Hc & Hm).
  destruct (H2 disk_readable_data Hnope) as (lvl' & w' & _ & Hc' & Hm').
  split.
  - rewrite Hm. vm_compute in Hc. inversion Hc. reflexivity.
  - rewrite Hm'. vm_compute in Hc'. inversion Hc'. reflexivity.
Defined.

Lemma loaders_agree_on_structured_witness :
  fst (load_data libs disk "broken.json" "json")
  = fst (load_schema libs disk "broken.json" "json").
Proof.
  exact (proj1 (loaders_agree_on_structured libs disk "broken.json" "json"
                  (or_introl eq_refl))).
Defined.

Lemma load_data_fault_record_witness :
  snd (load_data libs disk "broken.json" "json")
  = [EOpen "broken.json"; ECall json_load]
    ++ [ELog ERROR
          ("Error loading data: " ++ "Expecting value: line 1 column 9 (char 8)")].
Proof.
  destruct (load_data_fault_record libs disk "broken.json" "json"
              (mkExn JSONDecodeError "Expecting value: line 1 column 9 (char 8)")
              [EOpen "broken.json"; ECall json_load] eq_refl)
    as (_ & H & _).
  exact (H eq_refl).
Defined.

Lemma library_ValueError_reported_like_unsupported_witness :
  validate_data libs_strict_pattern disk person
    (PDict [("pattern", PStr "(")]) "json"
  = (Ret false,
     [ECall jsonschema_validate;
      ELog ERROR ("Error during validation: " ++ "unsupported pattern")]).
Proof.
  exact (library_ValueError_reported_like_unsupported libs_strict_pattern disk
           person (PDict [("pattern", PStr "(")]) "json"
           (mkExn ValueError "unsupported pattern")
           (or_introl eq_refl) eq_refl eq_refl).
Defined.

Lemma xml_schema_before_document_witness :
  fst (validate_data libs disk (PElem (item_doc "1")) (PStr "garbled.xsd") "xml")
  = Ret false
  /\ never is_document_call
       (snd (validate_data libs disk (PElem (item_doc "1"))
               (PStr "garbled.xsd") "xml")).
Proof.
  exact (xml_schema_before_document libs disk
           (PElem (item_doc "1")) (PStr "garbled.xsd") eq_refl
           (or_introl (ex_intro _ syntax_error eq_refl))).
Defined.

Lemma xml_without_lxml_witness :
  validate_data libs_without_lxml disk (PElem (item_doc "1")) (PStr "item.xsd")
    "xml"
  = (Ret false,
     [ECall lxml_import;
      ELog EXCEPTION "An unexpected error occurred: name 'lxml' is not defined"]).
Proof.
  exact (xml_without_lxml libs_without_lxml disk
           (PElem (item_doc "1")) (PStr "item.xsd")
           (mkExn ImportError "No module named 'lxml'") eq_refl).
Defined.

Lemma main_composes_witness :
  main libs disk "bad_age.json" "schema.json" "json"
  = (Ret tt,
     [EOpen "bad_age.json"; ECall json_load]
     ++ [EOpen "schema.json"; ECall json_load]
     ++ [ECall jsonschema_validate;
         ELog ERROR "Validation error: 'thirty' is not of type 'integer'"]
     ++ [EPrint "Data validation failed."]).
Proof.
  assert (Hfp : readable_file disk "bad_age.json")
    by (exists (text_file person_bad_age_text); split; reflexivity).
  assert (Hd : person_bad_age <> PNone) by discriminate.
  assert (Hs : person_schema <> PNone) by discriminate.
  exact (main_composes libs disk "bad_age.json" "schema.json" "json"
           person_bad_age person_schema false _ _ _
           Hfp disk_readable_schema eq_refl eq_refl Hd Hs eq_refl).
Defined.

Lemma success_line_is_earned_witness :
  readable_file disk "data.json" /\ readable_file disk "schema.json"
  /\ exists d s, fst (load_data libs disk "data.json" "json") = Ret d
                 /\ fst (load_schema libs disk "schema.json" "json") = Ret s
                 /\ d <> PNone /\ s <> PNone
                 /\ fst (validate_data libs disk d s "json") = Ret true.
Proof.
  apply (success_line_is_earned libs disk "data.json" "schema.json" "json").
  vm_compute. auto 10.
Defined.

Lemma data_fault_skips_schema_witness :
  main libs disk "broken.json" "schema.json" "json"
  = (Ret tt,
     [EOpen "broken.json"; ECall json_load;
      ELog ERROR "Error loading data: Expecting value: line 1 column 9 (char 8)"]
     ++ [EPrint ("An error occurred: "
                 ++ "Expecting value: line 1 column 9 (char 8)")])
  /\ never (opens "schema.json")
       (snd (main libs disk "broken.json" "schema.json" "json")).
Proof.
  destruct (data_fault_skips_schema libs disk "broken.json" "schema.json" "json"
              (mkExn JSONDecodeError "Expecting value: line 1 column 9 (char 8)")
              _ disk_readable_broken disk_readable_schema eq_refl eq_refl)
    as [H1 H2].
  split; [exact H1 | apply H2; discriminate].
Defined.

Lemma example_run_succeeds_witness :
  run_as_script json_dumps_fixture libs ∅ "data.json" "schema.json" "json"
  = (Ret tt,
     [EOpen "data.json"; ECall json_load; EOpen "schema.json"; ECall json_load;
      ECall jsonschema_validate; EPrint "Data validation successful."]).
Proof.
  exact (example_run_succeeds json_dumps_fixture libs ∅
           eq_refl eq_refl eq_refl eq_refl eq_refl).
Defined.

Lemma xml_run_hands_over_root_and_path_witness :
  exists b,
    fst (validate_data libs disk (PElem (item_doc "1")) (PStr "item.xsd") "xml")
    = Ret b
    /\ main libs disk "one.xml" "item.xsd" "xml"
       = (Ret tt,
          [EOpen "one.xml"; ECall ET_parse] ++ [EOpen "item.xsd"]
          ++ snd (validate_data libs disk (PElem (item_doc "1"))
                    (PStr "item.xsd") "xml")
          ++ [EPrint (if b then "Data validation successful."
                      else "Data validation failed.")]).
Proof.
  exact (xml_run_hands_over_root_and_path libs disk "one.xml" "item.xsd"
           (text_file (serialize (item_doc "1"))) (item_doc "1")
           eq_refl eq_refl disk_readable_xsd eq_refl).
Defined.

End MoreWitnesses.
